(** * Potions API: route handlers of the catalog, analytics and auth routers

    A shallow embedding of the Express route handlers of the repository
    (the analytics router, the potions router and the auth router) together
    with a small executable model of the document store they talk to.

    - A handler is a finite program over the store interface: it either
      answers ([Respond]), awaits one store operation and continues with the
      settled promise ([Await]), or lets a rejection escape ([Unhandled]).
    - JS numbers are IEEE binary64 values ([spec_float] with 53 bits of
      precision); the store also holds exact integers, as BSON does.
    - JS strings are sequences of code units; the development keeps to the
      8-bit range ([string]).  Messages are written as in the source.
    - Request parameters are either absent ([None], JS [undefined]) or
      strings, which is what the query-string and route parsers deliver for
      a parameter that is given once. *)

From Stdlib Require Import ZArith QArith Bool List String Ascii Lia.
From Stdlib Require Import Floats.SpecFloat.
Import ListNotations.

Local Open Scope Z_scope.
Local Open Scope string_scope.
Set Warnings "-register-all".

(** ** Numbers *)

Module Num.

Definition prec : Z := 53.
Definition emax : Z := 1024.

(** A BSON number: an exact integer or a double. *)
Inductive number :=
| Int (z : Z)
| Dbl (x : spec_float).

(** The mathematical value of a number. *)
Inductive xreal :=
| XNaN
| XInf (neg : bool)
| XFin (q : Q).

Definition pow2Q (e : Z) : Q :=
  match e with
  | Z0 => 1%Q
  | Zpos p => inject_Z (Z.pow_pos 2 p)
  | Zneg p => Qmake 1 (Pos.pow 2 p)
  end.

Definition exact (n : number) : xreal :=
  match n with
  | Int z => XFin (inject_Z z)
  | Dbl (S754_zero _) => XFin 0%Q
  | Dbl (S754_infinity s) => XInf s
  | Dbl S754_nan => XNaN
  | Dbl (S754_finite s m e) =>
      XFin (Qmult (inject_Z (cond_Zopp s (Zpos m))) (pow2Q e))
  end.

(** Comparison by value; [None] when a NaN is involved. *)
Definition compare (a b : number) : option comparison :=
  match exact a, exact b with
  | XNaN, _ | _, XNaN => None
  | XInf s1, XInf s2 =>
      Some (if s1 then (if s2 then Eq else Lt) else (if s2 then Gt else Eq))
  | XInf s, XFin _ => Some (if s then Lt else Gt)
  | XFin _, XInf s => Some (if s then Gt else Lt)
  | XFin p, XFin q => Some (Qcompare p q)
  end.

Definition isNaN (n : number) : bool :=
  match exact n with XNaN => true | _ => false end.

(** Equality of BSON values: numbers are equal when their values are, and
    NaN equals NaN. *)
Definition eqb (a b : number) : bool :=
  match compare a b with
  | Some Eq => true
  | Some _ => false
  | None => isNaN a && isNaN b
  end.

(** [a <= b] by value; false when a NaN is involved. *)
Definition leb (a b : number) : bool :=
  match compare a b with
  | Some Lt | Some Eq => true
  | _ => false
  end.

Definition isZero (n : number) : bool :=
  match exact n with XFin q => Qeq_bool q 0 | _ => false end.

Definition toDouble (n : number) : spec_float :=
  match n with
  | Int z => binary_normalize prec emax z 0 false
  | Dbl x => x
  end.

(** Division of doubles, rounded to nearest even. *)
Definition div (a b : number) : number :=
  Dbl (SFdiv prec emax (toDouble a) (toDouble b)).

End Num.

Export Num(number, Int, Dbl).

(** ** Values: JSON documents as the handlers and the store exchange them *)

Inductive Value :=
| VNull
| VBool (b : bool)
| VNum (n : number)
| VStr (s : string)
| VArr (items : list Value)
| VDoc (fields : list (string * Value)).

Definition Doc := list (string * Value).

Fixpoint lookup (k : string) (fields : Doc) : option Value :=
  match fields with
  | [] => None
  | (k', v) :: rest => if String.eqb k k' then Some v else lookup k rest
  end.

(** JS truthiness of a value ([!x] is its negation). *)
Definition truthy (v : Value) : bool :=
  match v with
  | VNull => false
  | VBool b => b
  | VNum n => negb (Num.isZero n || Num.isNaN n)
  | VStr s => negb (String.eqb s "")
  | VArr _ | VDoc _ => true
  end.

(** Equality of two BSON values: same type and equal contents, documents
    field by field in order, numbers by value. *)
Fixpoint value_eqb (a b : Value) : bool :=
  match a, b with
  | VNull, VNull => true
  | VBool x, VBool y => Bool.eqb x y
  | VNum x, VNum y => Num.eqb x y
  | VStr x, VStr y => String.eqb x y
  | VArr xs, VArr ys =>
      (fix items_eqb (xs ys : list Value) : bool :=
         match xs, ys with
         | [], [] => true
         | x :: xs', y :: ys' => value_eqb x y && items_eqb xs' ys'
         | _, _ => false
         end) xs ys
  | VDoc xs, VDoc ys =>
      (fix fields_eqb (xs ys : Doc) : bool :=
         match xs, ys with
         | [], [] => true
         | (k, x) :: xs', (l, y) :: ys' =>
             String.eqb k l && value_eqb x y && fields_eqb xs' ys'
         | _, _ => false
         end) xs ys
  | _, _ => false
  end.

(** Induction on values that reaches the items of arrays and the fields of
    documents. *)
Section ValueInduction.

Variable P : Value -> Prop.
Hypothesis HNull : P VNull.
Hypothesis HBool : forall b, P (VBool b).
Hypothesis HNum : forall n, P (VNum n).
Hypothesis HStr : forall s, P (VStr s).
Hypothesis HArr : forall items, Forall P items -> P (VArr items).
Hypothesis HDoc : forall fields, Forall (fun kv => P (snd kv)) fields -> P (VDoc fields).

Fixpoint Value_nested_ind (v : Value) : P v :=
  match v with
  | VNull => HNull
  | VBool b => HBool b
  | VNum n => HNum n
  | VStr s => HStr s
  | VArr items =>
      HArr items
        ((fix all (l : list Value) : Forall P l :=
            match l with
            | [] => Forall_nil P
            | x :: rest => Forall_cons x (Value_nested_ind x) (all rest)
            end) items)
  | VDoc fields =>
      HDoc fields
        ((fix all (l : list (string * Value)) : Forall (fun kv => P (snd kv)) l :=
            match l with
            | [] => Forall_nil _
            | kv :: rest =>
                Forall_cons kv
                  (match kv as kv0 return P (snd kv0) with
                   | (_, x) => Value_nested_ind x
                   end)
                  (all rest)
            end) fields)
  end.

End ValueInduction.

(** ** JavaScript strings and objects *)

Module JS.

(** The characters [\s] matches among the 8-bit code units: TAB, LF, VT,
    FF, CR, space and the no-break space. *)
Definition isWhitespace (c : ascii) : bool :=
  let n := nat_of_ascii c in
  ((9 <=? n) && (n <=? 13) || (n =? 32) || (n =? 160))%nat.

(** [validator.ltrim(str)]: [str.replace(/^\s+/g, '')]. *)
Fixpoint ltrim (s : string) : string :=
  match s with
  | EmptyString => EmptyString
  | String c rest => if isWhitespace c then ltrim rest else s
  end.

(** [validator.rtrim(str)]: drops the trailing run of whitespace. *)
Fixpoint rtrim (s : string) : string :=
  match s with
  | EmptyString => EmptyString
  | String c rest =>
      match rtrim rest with
      | EmptyString => if isWhitespace c then EmptyString else String c EmptyString
      | kept => String c kept
      end
  end.

(** [validator.trim(str)] is [rtrim(ltrim(str))]. *)
Definition trim (s : string) : string := rtrim (ltrim s).

(** [validator.escape(str)]: the ampersand, the double and the single
    quote, the angle brackets, the slash, the backslash and the backquote
    are replaced by their HTML entities.  The ampersand is replaced first
    and no entity holds another replaced character, so the chain of
    [replace] calls acts on each character of the input independently. *)
Definition escapeChar (c : ascii) : string :=
  match nat_of_ascii c with
  | 38%nat => "&amp;"
  | 34%nat => "&quot;"
  | 39%nat => "&#x27;"
  | 60%nat => "&lt;"
  | 62%nat => "&gt;"
  | 47%nat => "&#x2F;"
  | 92%nat => "&#x5C;"
  | 96%nat => "&#96;"
  | _ => String c EmptyString
  end.

Fixpoint escape (s : string) : string :=
  match s with
  | EmptyString => EmptyString
  | String c rest => escapeChar c ++ escape rest
  end.

(** [String(v)] for a parameter that may be [undefined]. *)
Definition toString (v : option string) : string :=
  match v with
  | None => "undefined"
  | Some s => s
  end.

(** [!!v] for a parameter: [undefined] and the empty string are falsy. *)
Definition isTruthy (v : option string) : bool :=
  match v with
  | None => false
  | Some s => negb (String.eqb s "")
  end.

(** [v === lit] for a parameter and a string literal. *)
Definition strictEq (v : option string) (lit : string) : bool :=
  match v with
  | None => false
  | Some s => String.eqb s lit
  end.

(** What reading a property of an object literal can give. *)
Inductive Property :=
| PUndefined
| PString (s : string)
| PFunction (fname : string)
| PObject.

(** The properties every object literal inherits from [Object.prototype]. *)
Definition Object_prototype : list (string * Property) :=
  [ ("constructor", PFunction "Object");
    ("__defineGetter__", PFunction "__defineGetter__");
    ("__defineSetter__", PFunction "__defineSetter__");
    ("hasOwnProperty", PFunction "hasOwnProperty");
    ("__lookupGetter__", PFunction "__lookupGetter__");
    ("__lookupSetter__", PFunction "__lookupSetter__");
    ("isPrototypeOf", PFunction "isPrototypeOf");
    ("propertyIsEnumerable", PFunction "propertyIsEnumerable");
    ("toString", PFunction "toString");
    ("valueOf", PFunction "valueOf");
    ("__proto__", PObject);
    ("toLocaleString", PFunction "toLocaleString") ].

Fixpoint assoc {A} (k : string) (l : list (string * A)) : option A :=
  match l with
  | [] => None
  | (k', v) :: rest => if String.eqb k k' then Some v else assoc k rest
  end.

(** [obj[key]] on an object literal with the string-valued own properties
    [own]: the own property, else the inherited one, else [undefined]. *)
Definition get (own : list (string * string)) (key : option string) : Property :=
  match assoc (toString key) own with
  | Some s => PString s
  | None =>
      match assoc (toString key) Object_prototype with
      | Some v => v
      | None => PUndefined
      end
  end.

Definition propTruthy (v : Property) : bool :=
  match v with
  | PUndefined => false
  | PString s => negb (String.eqb s "")
  | PFunction _ | PObject => true
  end.

(** [String(v)], as a computed property key [{ [v]: ... }] takes it. *)
Definition propToString (v : Property) : string :=
  match v with
  | PUndefined => "undefined"
  | PString s => s
  | PFunction f => "function " ++ f ++ "() { [native code] }"
  | PObject => "[object Object]"
  end.

Definition isNaN (x : spec_float) : bool :=
  match x with S754_nan => true | _ => false end.

End JS.

(** ** Errors, responses and the store interface *)

Record Error := mkError {
  err_name : string;
  err_code : option Z;
  err_message : string
}.

Inductive Cookie :=
| SetCookie (name value : string) (httpOnly : bool) (sameSite : string)
    (secure : bool) (maxAge : Z)
| ClearCookie (name : string).

(** What [res] has been told by the time the handler is done. *)
Record Response := mkResponse {
  status : Z;
  body : Value;
  cookies : list Cookie
}.

(** [res.json(v)] and [res.status(c).json(v)]. *)
Definition json (v : Value) : Response := mkResponse 200 v [].
Definition status_json (c : Z) (v : Value) : Response := mkResponse c v [].
Definition error_body (msg : string) : Value := VDoc [("error", VStr msg)].
Definition message_body (msg : string) : Value := VDoc [("message", VStr msg)].

(** A query condition on one field: [{ field: v }] or
    [{ field: { $op: n, ... } }]. *)
Inductive Condition :=
| Equals (v : Value)
| Operators (ops : list (string * number)).

Definition Query := list (string * Condition).

(** Aggregation expressions, as the handlers write them. *)
Inductive Expr :=
| EStr (s : string)
| ELit (v : Value)
| ECond (c t e : Expr)
| EEq (a b : Expr)
| EDivide (a b : Expr).

Inductive ProjectItem :=
| Include
| Compute (e : Expr).

(** An accumulator [{ op: arg }] of a [$group] stage. *)
Definition Accumulator := (string * Expr)%type.

Inductive Stage :=
| Project (spec : list (string * ProjectItem))
| Group (id : Expr) (accumulators : list (string * Accumulator)).

Definition Pipeline := list Stage.

(** The calls the handlers make on the two models. *)
Inductive StoreOp :=
| PotionFind (q : Query)
| PotionFindById (id : string)
| PotionFindByIdAndUpdate (id : string) (update : Value)
| PotionFindByIdAndDelete (id : string)
| PotionSave (payload : Value)
| PotionAggregate (p : Pipeline)
| UserFindOne (q : Query)
| UserComparePassword (user candidate : Value)
| UserSave (name password : string).

(** A settled promise. *)
Inductive Settled :=
| Fulfilled (v : Value)
| Rejected (e : Error).

(** An async route handler. *)
Inductive Handler :=
| Respond (r : Response)
| Await (op : StoreOp) (k : Settled -> Handler)
| Unhandled (e : Error).

(** How a request ends: with a response, or with a rejection nobody
    caught (no response is written). *)
Inductive Outcome :=
| Responded (r : Response)
| Crashed (e : Error).

Section Run.

Variable State : Type.
(** The store: how each call settles in a state, and the state after. *)
Variable exec : StoreOp -> State -> Settled * State.

(** Runs a handler; gives the outcome, the calls made on the store in
    order, and the final state. *)
Fixpoint run (h : Handler) (s : State) : Outcome * list StoreOp * State :=
  match h with
  | Respond r => (Responded r, [], s)
  | Unhandled e => (Crashed e, [], s)
  | Await op k =>
      let '(r, s') := exec op s in
      let '(o, calls, s'') := run (k r) s' in
      (o, op :: calls, s'')
  end.

Definition outcome (h : Handler) (s : State) : Outcome := fst (fst (run h s)).
Definition calls (h : Handler) (s : State) : list StoreOp := snd (fst (run h s)).
Definition final (h : Handler) (s : State) : State := snd (run h s).

End Run.

Arguments run {State} exec h s.
Arguments outcome {State} exec h s.
Arguments calls {State} exec h s.
Arguments final {State} exec h s.

(** ** The platform: built-ins, libraries and configuration

    What the handlers use and the repository does not define. *)

Record Platform := mkPlatform {
  (** [process.env] *)
  env : string -> option string;
  (** the global [parseFloat], on strings *)
  parseFloat : string -> spec_float;
  (** [req.bodyString(key)] of the sanitize middleware *)
  bodyString : Value -> string -> Value;
  (** [jwt.sign(payload, secret, { expiresIn })] *)
  jwt_sign : Value -> string -> string -> string;
  (** [jwt.verify(token, secret)]; [None] when it throws *)
  jwt_verify : string -> string -> option Value;
  (** the body of the 401 answer of the session guard *)
  unauthorized : Value
}.

(** [process.env.KEY || fallback] *)
Definition envOr (p : Platform) (key fallback : string) : string :=
  match env p key with
  | Some s => if String.eqb s "" then fallback else s
  | None => fallback
  end.

Definition JWT_SECRET (p : Platform) : string := envOr p "JWT_SECRET" "dev_secret".
Definition COOKIE_NAME (p : Platform) : string :=
  envOr p "COOKIE_NAME" "demo_node+mongo_token".

(** [parseFloat(req.query.x)]: [undefined] reads as NaN. *)
Definition parseFloatParam (p : Platform) (v : option string) : spec_float :=
  match v with
  | None => S754_nan
  | Some s => parseFloat p s
  end.

(** Modelled from the spec: the session guard [authMiddleware] of
    middleware.js, which is not among the sources.  It reads the session
    cookie, verifies the token, and on any failure answers 401 before the
    guarded handler starts; on success the guarded handler runs. *)
Definition authMiddleware (p : Platform) (reqCookies : list (string * string))
    (next : Handler) : Handler :=
  match JS.assoc (COOKIE_NAME p) reqCookies with
  | None => Respond (status_json 401 (unauthorized p))
  | Some token =>
      match jwt_verify p token (JWT_SECRET p) with
      | None => Respond (status_json 401 (unauthorized p))
      | Some _ => next
      end
  end.

(** The [try { ... await call ... } catch (err) { res.status(c).json({ error:
    err.message }) }] shape most handlers have. *)
Definition catching (c : Z) (op : StoreOp) (k : Value -> Handler) : Handler :=
  Await op (fun r =>
    match r with
    | Fulfilled v => k v
    | Rejected err => Respond (status_json c (error_body (err_message err)))
    end).

(** ** The analytics router *)

Module analytics.

Definition allowedMetrics : list (string * string) :=
  [ ("avg", "$avg"); ("sum", "$sum"); ("count", "$count") ].

(** [GET /analytics/strength-flavor-ratio] *)
Definition strengthFlavorRatioPipeline : Pipeline :=
  [ Project
      [ ("name", Include);
        ("strengthFlavorRatio",
          Compute
            (ECond (EEq (EStr "$ratings.flavor") (ELit (VNum (Int 0))))
                   (ELit VNull)
                   (EDivide (EStr "$ratings.strength") (EStr "$ratings.flavor")))) ] ].

Definition strengthFlavorRatio : Handler :=
  catching 500 (PotionAggregate strengthFlavorRatioPipeline)
    (fun result => Respond (json result)).

(** [GET /analytics/search?groupBy=&metric=&field=] *)
Definition search (groupBy metric field : option string) : Handler :=
  let mongoMetric := JS.get allowedMetrics metric in
  if negb (JS.propTruthy mongoMetric)
     || negb (JS.isTruthy groupBy)
     || (negb (JS.isTruthy field) && negb (JS.strictEq metric "count"))
  then Respond (status_json 400 (error_body "Paramètres invalides"))
  else
    let _id := EStr ("$" ++ JS.toString groupBy) in
    let groupStage :=
      if JS.strictEq metric "count"
      then Group _id [ ("count", ("$sum", ELit (VNum (Int 1)))) ]
      else Group _id [ ("result", (JS.propToString mongoMetric,
                                   EStr ("$" ++ JS.toString field))) ] in
    catching 500 (PotionAggregate [ groupStage ])
      (fun result => Respond (json result)).

End analytics.

(** ** The potions router *)

Module potions.

Definition notFound : Response :=
  status_json 404 (error_body "Potion non trouvée").

(** [GET /potions/price-range?min=&max=] *)
Definition priceFilter (p : Platform) (min max : option string)
    : list (string * number) :=
  let min := parseFloatParam p min in
  let max := parseFloatParam p max in
  (if negb (JS.isNaN min) then [ ("$gte", Dbl min) ] else [])
  ++ (if negb (JS.isNaN max) then [ ("$lte", Dbl max) ] else []).

Definition priceQuery (p : Platform) (min max : option string) : Query :=
  let priceFilter := priceFilter p min max in
  if (0 <? List.length priceFilter)%nat
  then [ ("price", Operators priceFilter) ]
  else [].

Definition priceRange (p : Platform) (min max : option string) : Handler :=
  catching 500 (PotionFind (priceQuery p min max))
    (fun potions => Respond (json potions)).

(** [POST /potions], behind the session guard *)
Definition create (p : Platform) (reqCookies : list (string * string))
    (reqBody : Value) : Handler :=
  authMiddleware p reqCookies
    (catching 400 (PotionSave reqBody)
       (fun savedPotion => Respond (status_json 201 savedPotion))).

(** [POST /potions/:id], behind the session guard *)
Definition update (p : Platform) (reqCookies : list (string * string))
    (id : string) (reqBody : Value) : Handler :=
  authMiddleware p reqCookies
    (catching 500 (PotionFindByIdAndUpdate id reqBody)
       (fun updatedPotion =>
          if negb (truthy updatedPotion) then Respond notFound
          else Respond (json updatedPotion))).

(** [DELETE /potions/:id], behind the session guard *)
Definition delete (p : Platform) (reqCookies : list (string * string))
    (id : string) : Handler :=
  authMiddleware p reqCookies
    (catching 500 (PotionFindByIdAndDelete id)
       (fun deleted =>
          if negb (truthy deleted) then Respond notFound
          else Respond (json (message_body "Potion supprimée")))).

(** [GET /potions/:id] *)
Definition getById (id : string) : Handler :=
  catching 500 (PotionFindById id)
    (fun potion =>
       if negb (truthy potion) then Respond notFound
       else Respond (json potion)).

End potions.

(** ** The auth router *)

Module auth.

(** One error of [validationResult(req).array()]. *)
Record FieldError := mkFieldError {
  value : string;
  msg : string;
  param : string;
  location : string
}.

(** A validation chain of express-validator: sanitizers rewrite the value
    the later steps see; every validator runs, and one that fails adds
    its message to the errors of the field. *)
Inductive ChainStep :=
| Sanitizer (f : string -> string)
| Validator (test : string -> bool) (message : string).

Fixpoint runChain (field : string) (steps : list ChainStep) (v : string)
    : string * list FieldError :=
  match steps with
  | [] => (v, [])
  | Sanitizer f :: rest => runChain field rest (f v)
  | Validator test m :: rest =>
      let '(v', errors) := runChain field rest v in
      (v', if test v then errors else mkFieldError v m field "body" :: errors)
  end.

Definition notEmpty (s : string) : bool := negb (String.eqb s "").

Definition isLength (min : nat) (max : option nat) (s : string) : bool :=
  let len := String.length s in
  ((min <=? len) &&
   match max with
   | None => true
   | Some max => len <=? max
   end)%nat.

Definition nameChain : list ChainStep :=
  [ Sanitizer JS.trim; Sanitizer JS.escape;
    Validator notEmpty "Le nom d’utilisateur est requis.";
    Validator (isLength 3 (Some 30%nat)) "Doit faire entre 3 et 30 caractères." ].

Definition passwordChain : list ChainStep :=
  [ Sanitizer JS.trim; Sanitizer JS.escape;
    Validator notEmpty "Le mot de passe est requis.";
    Validator (isLength 6 None) "Minimum 6 caractères." ].

(** A body field that is absent is validated as the empty string. *)
Definition fieldInput (v : option string) : string :=
  match v with
  | None => ""
  | Some s => s
  end.

Definition errorValue (e : FieldError) : Value :=
  VDoc [ ("value", VStr (value e)); ("msg", VStr (msg e));
         ("param", VStr (param e)); ("location", VStr (location e)) ].

(** The two chains of [POST /auth/register], in order: the sanitized
    fields and the errors. *)
Definition validate (name password : option string)
    : string * string * list FieldError :=
  let '(name', nameErrors) := runChain "name" nameChain (fieldInput name) in
  let '(password', passwordErrors) :=
    runChain "password" passwordChain (fieldInput password) in
  (name', password', (nameErrors ++ passwordErrors)%list).

(** The [try]/[catch] around [user.save()]. *)
Definition saved (r : Settled) : Handler :=
  match r with
  | Fulfilled _ => Respond (status_json 201 (message_body "Utilisateur créé"))
  | Rejected err =>
      match err_code err with
      | Some 11000 => Respond (status_json 500 (error_body "Erreur système"))
      | _ => Respond (status_json 400 (error_body (err_message err)))
      end
  end.

(** [POST /auth/register] *)
Definition register (name password : option string) : Handler :=
  let '(name', password', errors) := validate name password in
  match errors with
  | _ :: _ =>
      Respond (status_json 400 (VDoc [ ("errors", VArr (map errorValue errors)) ]))
  | [] => Await (UserSave name' password') saved
  end.

Definition invalidCredentials : Response :=
  status_json 401 (error_body "Identifiants invalides").

Definition fieldOrNull (k : string) (v : Value) : Value :=
  match v with
  | VDoc fields => match lookup k fields with Some x => x | None => VNull end
  | _ => VNull
  end.

(** [POST /auth/login]; the handler has no [try], so a rejected store
    call escapes it. *)
Definition login (p : Platform) (reqBody : Value) : Handler :=
  let name := bodyString p reqBody "name" in
  let password := bodyString p reqBody "password" in
  Await (UserFindOne [ ("name", Equals name) ]) (fun r =>
    match r with
    | Rejected err => Unhandled err
    | Fulfilled user =>
        if negb (truthy user) then Respond invalidCredentials
        else
          Await (UserComparePassword user password) (fun c =>
            match c with
            | Rejected err => Unhandled err
            | Fulfilled matched =>
                if negb (truthy matched) then Respond invalidCredentials
                else
                  let token :=
                    jwt_sign p
                      (VDoc [ ("id", fieldOrNull "_id" user);
                              ("name", fieldOrNull "name" user) ])
                      (JWT_SECRET p) "1d" in
                  Respond
                    (mkResponse 200 (message_body "Connecté avec succès")
                       [ SetCookie (COOKIE_NAME p) token true "strict" false
                           (24 * 60 * 60 * 1000) ])
            end)
    end).

End auth.

(** ** The document store

    An executable model of the store behind the two Mongoose models, as far
    as the handlers above can exercise it: finding by a query, the
    [findById] family with its identifier cast, the [$project] and [$group]
    stages with the expressions and accumulators the handlers write, and
    the insertion of users under a unique name. *)

Module Mongo.

Inductive Result (A : Type) :=
| Ok (a : A)
| Fail (e : Error).
Arguments Ok {A} a.
Arguments Fail {A} e.

Definition bind {A B} (r : Result A) (f : A -> Result B) : Result B :=
  match r with
  | Ok a => f a
  | Fail e => Fail e
  end.

Notation "x <- r ;; k" := (bind r (fun x => k))
  (at level 61, r at next level, right associativity).

Fixpoint mapM {A B} (f : A -> Result B) (l : list A) : Result (list B) :=
  match l with
  | [] => Ok []
  | a :: rest => b <- f a ;; bs <- mapM f rest ;; Ok (b :: bs)
  end.

Definition serverError (msg : string) : Error :=
  mkError "MongoServerError" None msg.

(** *** Field paths *)

(** [s.split(sep)] *)
Fixpoint split (sep : ascii) (s : string) : list string :=
  match s with
  | EmptyString => [ EmptyString ]
  | String c rest =>
      if Ascii.eqb c sep then EmptyString :: split sep rest
      else
        match split sep rest with
        | h :: t => String c h :: t
        | [] => [ String c EmptyString ]
        end
  end.

Fixpoint hasNul (s : string) : bool :=
  match s with
  | EmptyString => false
  | String c rest => Ascii.eqb c zero || hasNul rest
  end.

Definition validComponent (c : string) : bool :=
  negb (String.eqb c "") && negb (String.prefix "$" c) && negb (hasNul c).

(** A dotted field path is accepted when every component is non-empty,
    does not start with a dollar sign and holds no NUL. *)
Definition validPath (components : list string) : bool :=
  forallb validComponent components.

Definition parseFieldPath (s : string) : Result (list string) :=
  let components := split "." s in
  if validPath components then Ok components
  else Fail (serverError ("Invalid field path: " ++ s)).

(** A parsed expression. [PPath []] is the document itself. *)
Inductive PExpr :=
| PPath (path : list string)
| PMissing
| PLit (v : Value)
| PCond (c t e : PExpr)
| PEq (a b : PExpr)
| PDivide (a b : PExpr).

Definition drop (n : nat) (s : string) : string :=
  String.substring n (String.length s - n) s.

(** [$$ROOT], [$$CURRENT] and [$$REMOVE]; any other name is rejected as
    an undefined variable. *)
Definition parseVariable (s : string) : Result PExpr :=
  match split "." s with
  | name :: path =>
      if String.eqb name "ROOT" || String.eqb name "CURRENT" then
        if validPath path then Ok (PPath path)
        else Fail (serverError ("Invalid field path: " ++ s))
      else if String.eqb name "REMOVE" then Ok PMissing
      else Fail (serverError ("Use of undefined variable: " ++ name))
  | [] => Fail (serverError "empty variable name")
  end.

(** A string in expression position: a variable, a field path, or a
    literal. *)
Definition parseString (s : string) : Result PExpr :=
  if String.prefix "$$" s then parseVariable (drop 2 s)
  else if String.prefix "$" s then
    path <- parseFieldPath (drop 1 s) ;; Ok (PPath path)
  else Ok (PLit (VStr s)).

Fixpoint parseExpr (e : Expr) : Result PExpr :=
  match e with
  | EStr s => parseString s
  | ELit v => Ok (PLit v)
  | ECond c t e =>
      c' <- parseExpr c ;; t' <- parseExpr t ;; e' <- parseExpr e ;;
      Ok (PCond c' t' e')
  | EEq a b => a' <- parseExpr a ;; b' <- parseExpr b ;; Ok (PEq a' b')
  | EDivide a b => a' <- parseExpr a ;; b' <- parseExpr b ;; Ok (PDivide a' b')
  end.

(** The value at a path; [None] when it is missing.  Below an array the
    path is followed in each element that is a document. *)
Fixpoint evaluatePath (path : list string) (doc : Doc) : option Value :=
  match path with
  | [] => Some (VDoc doc)
  | [ name ] => lookup name doc
  | name :: rest =>
      match lookup name doc with
      | Some (VDoc inner) => evaluatePath rest inner
      | Some (VArr items) =>
          Some (VArr (flat_map
                        (fun item =>
                           match item with
                           | VDoc inner =>
                               match evaluatePath rest inner with
                               | Some v => [ v ]
                               | None => []
                               end
                           | _ => []
                           end) items))
      | _ => None
      end
  end.

Definition opt_eqb (a b : option Value) : bool :=
  match a, b with
  | None, None => true
  | Some x, Some y => value_eqb x y
  | _, _ => false
  end.

Definition coerceToBool (v : option Value) : bool :=
  match v with
  | None | Some VNull => false
  | Some (VBool b) => b
  | Some (VNum n) => negb (Num.isZero n)
  | Some _ => true
  end.

Definition nullish (v : option Value) : bool :=
  match v with
  | None | Some VNull => true
  | Some _ => false
  end.

(** [$divide]: the quotient of two numbers as a double; an error when
    the divisor is zero or an operand is neither a number nor null. *)
Definition divide (a b : option Value) : Result (option Value) :=
  match a, b with
  | Some (VNum x), Some (VNum y) =>
      if Num.isZero y then Fail (serverError "can't $divide by zero")
      else Ok (Some (VNum (Num.div x y)))
  | _, _ =>
      if nullish a || nullish b then Ok (Some VNull)
      else Fail (serverError "$divide only supports numeric types")
  end.

(** [$cond] evaluates only the branch it selects. *)
Fixpoint eval (e : PExpr) (doc : Doc) : Result (option Value) :=
  match e with
  | PPath path => Ok (evaluatePath path doc)
  | PMissing => Ok None
  | PLit v => Ok (Some v)
  | PCond c t e =>
      vc <- eval c doc ;;
      if coerceToBool vc then eval t doc else eval e doc
  | PEq a b =>
      va <- eval a doc ;; vb <- eval b doc ;;
      Ok (Some (VBool (opt_eqb va vb)))
  | PDivide a b =>
      va <- eval a doc ;; vb <- eval b doc ;; divide va vb
  end.

(** *** Configuration of the store model

    The parts of the two schema files and of the driver that the
    handlers depend on but the sources do not show. *)
Record Config := mkConfig {
  (** the cast of a route parameter to an identifier; [None] when the
      cast fails *)
  castObjectId : string -> option string;
  (** a fresh identifier, given the identifiers in use *)
  newObjectId : list Value -> string;
  (** the shape validation of the potion schema *)
  validatePotion : Value -> option Error;
  (** the one-way derivation applied to a password before it is stored *)
  hashPassword : string -> string;
  (** whether a candidate password matches a stored derivation *)
  verifyPassword : string -> string -> bool;
  (** the sum of doubles the accumulators compute *)
  sumDoubles : list spec_float -> spec_float
}.

(** *** Aggregation stages *)

Inductive AccOp := AccSum | AccAvg.

Inductive PStage :=
| PProject (spec : list (string * option PExpr))
| PGroup (id : PExpr) (accumulators : list (string * (AccOp * PExpr))).

Definition parseAccOp (op : string) : Result AccOp :=
  if String.eqb op "$sum" then Ok AccSum
  else if String.eqb op "$avg" then Ok AccAvg
  else Fail (serverError ("unknown group operator '" ++ op ++ "'")).

Definition parseStage (st : Stage) : Result PStage :=
  match st with
  | Project spec =>
      spec' <- mapM (fun item : string * ProjectItem =>
                       match snd item with
                       | Include => Ok (fst item, None)
                       | Compute e => e' <- parseExpr e ;; Ok (fst item, Some e')
                       end) spec ;;
      Ok (PProject spec')
  | Group id accumulators =>
      id' <- parseExpr id ;;
      accs' <- mapM (fun acc : string * Accumulator =>
                       op <- parseAccOp (fst (snd acc)) ;;
                       arg <- parseExpr (snd (snd acc)) ;;
                       Ok (fst acc, (op, arg))) accumulators ;;
      Ok (PGroup id' accs')
  end.

(** [$project]: the identifier, the included fields the document has,
    then the computed fields whose value is not missing. *)
Definition included (spec : list (string * option PExpr)) (k : string) : bool :=
  existsb (fun item => String.eqb (fst item) k
                       && match snd item with None => true | Some _ => false end)
          spec.

Definition computeField (doc : Doc) (item : string * option PExpr)
    : Result Doc :=
  match snd item with
  | None => Ok []
  | Some e =>
      v <- eval e doc ;;
      Ok match v with
         | Some x => [ (fst item, x) ]
         | None => []
         end
  end.

Definition projectDoc (spec : list (string * option PExpr)) (doc : Doc)
    : Result Doc :=
  computed <- mapM (computeField doc) spec ;;
  Ok ((match lookup "_id" doc with
       | Some v => [ ("_id", v) ]
       | None => []
       end)
      ++ filter (fun kv => included spec (fst kv) && negb (String.eqb (fst kv) "_id")) doc
      ++ List.concat computed)%list.

(** [$group]: a document joins the first bucket whose key equals its
    own, or opens a new one; a missing key groups under null. *)
Definition keyOf (v : option Value) : Value :=
  match v with
  | Some x => x
  | None => VNull
  end.

Definition Buckets := list (Value * list Doc).

Fixpoint insertBucket (k : Value) (d : Doc) (buckets : Buckets) : Buckets :=
  match buckets with
  | [] => [ (k, [ d ]) ]
  | (k', members) :: rest =>
      if value_eqb k' k then (k', (members ++ [ d ])%list) :: rest
      else (k', members) :: insertBucket k d rest
  end.

Fixpoint groupDocs (id : PExpr) (docs : list Doc) (buckets : Buckets)
    : Result Buckets :=
  match docs with
  | [] => Ok buckets
  | d :: rest =>
      k <- eval id d ;;
      groupDocs id rest (insertBucket (keyOf k) d buckets)
  end.

Definition numbersOf (vs : list (option Value)) : list number :=
  flat_map (fun v => match v with Some (VNum n) => [ n ] | _ => [] end) vs.

Definition isInt (n : number) : bool :=
  match n with Int _ => true | Dbl _ => false end.

Definition intOf (n : number) : Z :=
  match n with Int z => z | Dbl _ => 0 end.

(** Integers add up exactly; as soon as a double takes part the sum is
    the driver's sum of doubles. *)
Definition sumNumbers (cfg : Config) (ns : list number) : number :=
  if forallb isInt ns then Int (fold_right Z.add 0 (map intOf ns))
  else Dbl (sumDoubles cfg (map Num.toDouble ns)).

Definition accumulate (cfg : Config) (op : AccOp) (vs : list (option Value))
    : Value :=
  match op with
  | AccSum => VNum (sumNumbers cfg (numbersOf vs))
  | AccAvg =>
      match numbersOf vs with
      | [] => VNull
      | ns => VNum (Num.div (sumNumbers cfg ns) (Int (Z.of_nat (List.length ns))))
      end
  end.

Definition groupField (cfg : Config) (members : list Doc)
    (acc : string * (AccOp * PExpr)) : Result (string * Value) :=
  vs <- mapM (eval (snd (snd acc))) members ;;
  Ok (fst acc, accumulate cfg (fst (snd acc)) vs).

Definition groupOutput (cfg : Config)
    (accumulators : list (string * (AccOp * PExpr)))
    (bucket : Value * list Doc) : Result Doc :=
  fields <- mapM (groupField cfg (snd bucket)) accumulators ;;
  Ok (("_id", fst bucket) :: fields).

Definition runStage (cfg : Config) (st : PStage) (docs : list Doc)
    : Result (list Doc) :=
  match st with
  | PProject spec => mapM (projectDoc spec) docs
  | PGroup id accumulators =>
      buckets <- groupDocs id docs [] ;;
      mapM (groupOutput cfg accumulators) buckets
  end.

Fixpoint runStages (cfg : Config) (stages : list PStage) (docs : list Doc)
    : Result (list Doc) :=
  match stages with
  | [] => Ok docs
  | st :: rest => out <- runStage cfg st docs ;; runStages cfg rest out
  end.

(** The pipeline is parsed as a whole before any document is read. *)
Definition aggregate (cfg : Config) (p : Pipeline) (docs : list Doc)
    : Result (list Doc) :=
  stages <- mapM parseStage p ;;
  runStages cfg stages docs.

(** *** Queries *)

Inductive Cmp := CGte | CLte | CGt | CLt.

Definition parseCmp (op : string) : Result Cmp :=
  if String.eqb op "$gte" then Ok CGte
  else if String.eqb op "$lte" then Ok CLte
  else if String.eqb op "$gt" then Ok CGt
  else if String.eqb op "$lt" then Ok CLt
  else Fail (serverError ("unknown operator: " ++ op)).

(** A comparison with a NaN holds only between two NaN, and then only
    for the non-strict operators. *)
Definition holds (c : Cmp) (x bound : number) : bool :=
  match Num.compare x bound, c with
  | Some Eq, (CGte | CLte) => true
  | Some Gt, (CGte | CGt) => true
  | Some Lt, (CLte | CLt) => true
  | None, (CGte | CLte) => Num.isNaN x && Num.isNaN bound
  | _, _ => false
  end.

Inductive PCondition :=
| PEquals (v : Value)
| POperators (ops : list (Cmp * number)).

Definition parseCondition (c : Condition) : Result PCondition :=
  match c with
  | Equals v => Ok (PEquals v)
  | Operators ops =>
      ops' <- mapM (fun o : string * number =>
                      c <- parseCmp (fst o) ;; Ok (c, snd o)) ops ;;
      Ok (POperators ops')
  end.

Definition parseQuery (q : Query) : Result (list (string * PCondition)) :=
  mapM (fun f : string * Condition =>
          c <- parseCondition (snd f) ;; Ok (fst f, c)) q.

(** A numeric bound is met by a number that satisfies it, or by an array
    with such a number; no other value meets it. *)
Definition meets (c : Cmp) (bound : number) (v : option Value) : bool :=
  match v with
  | Some (VNum x) => holds c x bound
  | Some (VArr items) =>
      existsb (fun item => match item with
                           | VNum x => holds c x bound
                           | _ => false
                           end) items
  | _ => false
  end.

Definition equalsValue (expected : Value) (v : option Value) : bool :=
  match v with
  | None => value_eqb expected VNull
  | Some (VArr items) =>
      value_eqb (VArr items) expected || existsb (value_eqb expected) items
  | Some x => value_eqb x expected
  end.

Definition matchesCondition (c : PCondition) (v : option Value) : bool :=
  match c with
  | PEquals expected => equalsValue expected v
  | POperators ops => forallb (fun o => meets (fst o) (snd o) v) ops
  end.

Definition matches (q : list (string * PCondition)) (doc : Doc) : bool :=
  forallb (fun f => matchesCondition (snd f) (lookup (fst f) doc)) q.

Definition find (q : Query) (docs : list Doc) : Result (list Doc) :=
  q' <- parseQuery q ;;
  Ok (filter (matches q') docs).

(** *** The two collections *)

Record Store := mkStore {
  potions : list Doc;
  users : list Doc
}.

Definition castError (id : string) : Error :=
  mkError "CastError" None
    ("Cast to ObjectId failed for value " ++ id ++ " at path _id").

Definition hasId (oid : string) (doc : Doc) : bool :=
  opt_eqb (lookup "_id" doc) (Some (VStr oid)).

Definition findOneById (oid : string) (docs : list Doc) : option Doc :=
  List.find (hasId oid) docs.

Definition ids (docs : list Doc) : list Value :=
  flat_map (fun d => match lookup "_id" d with Some v => [ v ] | None => [] end)
           docs.

(** Setting one field: in place when the document has it, else at the end. *)
Fixpoint setField (k : string) (v : Value) (doc : Doc) : Doc :=
  match doc with
  | [] => [ (k, v) ]
  | (k', v') :: rest =>
      if String.eqb k k' then (k, v) :: rest else (k', v') :: setField k v rest
  end.

Definition merge (update doc : Doc) : Doc :=
  fold_left (fun acc kv => setField (fst kv) (snd kv) acc) update doc.

Fixpoint replaceById (oid : string) (new : Doc) (docs : list Doc) : list Doc :=
  match docs with
  | [] => []
  | d :: rest =>
      if hasId oid d then new :: rest else d :: replaceById oid new rest
  end.

Fixpoint removeById (oid : string) (docs : list Doc) : list Doc :=
  match docs with
  | [] => []
  | d :: rest => if hasId oid d then rest else d :: removeById oid rest
  end.

Definition settle (r : Result (list Doc)) : Settled :=
  match r with
  | Ok docs => Fulfilled (VArr (map VDoc docs))
  | Fail e => Rejected e
  end.

Definition docOrNull (d : option Doc) : Value :=
  match d with
  | Some doc => VDoc doc
  | None => VNull
  end.

Definition duplicateKey (name : string) : Error :=
  mkError "MongoServerError" (Some 11000)
    ("E11000 duplicate key error: name " ++ name).

Definition hasName (name : string) (doc : Doc) : bool :=
  opt_eqb (lookup "name" doc) (Some (VStr name)).

(** Modelled from the spec: the behaviour of the two schema files
    (potion.model.js and user.model.js), which are not among the sources:
    identifiers are assigned by the store at creation and never change, a
    new potion is validated for shape and stored as given, an update
    replaces the submitted fields, users are unique by name and their
    password is stored derived, with a verification attached to each
    user. *)
Definition exec (cfg : Config) (op : StoreOp) (s : Store) : Settled * Store :=
  match op with
  | PotionFind q => (settle (find q (potions s)), s)
  | PotionFindById id =>
      match castObjectId cfg id with
      | None => (Rejected (castError id), s)
      | Some oid => (Fulfilled (docOrNull (findOneById oid (potions s))), s)
      end
  | PotionFindByIdAndUpdate id update =>
      match castObjectId cfg id with
      | None => (Rejected (castError id), s)
      | Some oid =>
          match findOneById oid (potions s), update with
          | None, _ => (Fulfilled VNull, s)
          | Some doc, VDoc fields =>
              if opt_eqb (lookup "_id" fields) None
                 || opt_eqb (lookup "_id" fields) (lookup "_id" doc)
              then
                let doc' := merge fields doc in
                (Fulfilled (VDoc doc'),
                 mkStore (replaceById oid doc' (potions s)) (users s))
              else (Rejected (serverError "the field _id is immutable"), s)
          | Some doc, _ => (Fulfilled (VDoc doc), s)
          end
      end
  | PotionFindByIdAndDelete id =>
      match castObjectId cfg id with
      | None => (Rejected (castError id), s)
      | Some oid =>
          match findOneById oid (potions s) with
          | None => (Fulfilled VNull, s)
          | Some doc =>
              (Fulfilled (VDoc doc), mkStore (removeById oid (potions s)) (users s))
          end
      end
  | PotionSave payload =>
      match validatePotion cfg payload with
      | Some e => (Rejected e, s)
      | None =>
          let fields := match payload with VDoc fields => fields | _ => [] end in
          let doc :=
            match lookup "_id" fields with
            | Some _ => fields
            | None => ("_id", VStr (newObjectId cfg (ids (potions s)))) :: fields
            end in
          (Fulfilled (VDoc doc), mkStore (potions s ++ [ doc ]) (users s))
      end
  | PotionAggregate p => (settle (aggregate cfg p (potions s)), s)
  | UserFindOne q =>
      match find q (users s) with
      | Ok found => (Fulfilled (docOrNull (List.hd_error found)), s)
      | Fail e => (Rejected e, s)
      end
  | UserComparePassword user candidate =>
      match (match user with VDoc fields => lookup "password" fields | _ => None end), candidate with
      | Some (VStr stored), VStr given =>
          (Fulfilled (VBool (verifyPassword cfg stored given)), s)
      | _, _ => (Rejected (mkError "Error" None "Illegal arguments"), s)
      end
  | UserSave name password =>
      if existsb (hasName name) (users s)
      then (Rejected (duplicateKey name), s)
      else
        let doc :=
          [ ("_id", VStr (newObjectId cfg (ids (users s))));
            ("name", VStr name);
            ("password", VStr (hashPassword cfg password)) ] in
        (Fulfilled (VDoc doc), mkStore (potions s) (users s ++ [ doc ]))
  end.

End Mongo.

(** ** A concrete platform and store configuration

    Small stand-ins for the libraries, used to run the handlers on concrete
    requests.  No general statement below depends on them. *)

Module Demo.

Definition isDigit (c : ascii) : bool :=
  let n := nat_of_ascii c in ((48 <=? n) && (n <=? 57))%nat.

Definition isHex (c : ascii) : bool :=
  let n := nat_of_ascii c in
  (isDigit c || ((65 <=? n) && (n <=? 70)) || ((97 <=? n) && (n <=? 102)))%nat.

Definition lower (c : ascii) : ascii :=
  let n := nat_of_ascii c in
  if ((65 <=? n) && (n <=? 90))%nat then ascii_of_nat (n + 32) else c.

Fixpoint allChars (f : ascii -> bool) (s : string) : bool :=
  match s with
  | EmptyString => true
  | String c rest => f c && allChars f rest
  end.

Fixpoint mapChars (f : ascii -> ascii) (s : string) : string :=
  match s with
  | EmptyString => EmptyString
  | String c rest => String (f c) (mapChars f rest)
  end.

(** An identifier is a string of 24 hexadecimal digits. *)
Definition castObjectId (id : string) : option string :=
  if (String.length id =? 24)%nat && allChars isHex id
  then Some (mapChars lower id)
  else None.

Definition hexDigit (n : nat) : ascii :=
  if (n <? 10)%nat then ascii_of_nat (48 + n) else ascii_of_nat (87 + n).

Fixpoint hex (width : nat) (n : nat) : string :=
  match width with
  | O => EmptyString
  | S w => (hex w (n / 16) ++ String (hexDigit (n mod 16)) EmptyString)%string
  end.

Fixpoint firstFresh (fuel n : nat) (used : list Value) : string :=
  match fuel with
  | O => hex 24 n
  | S fuel' =>
      if existsb (value_eqb (VStr (hex 24 n))) used
      then firstFresh fuel' (S n) used
      else hex 24 n
  end.

Definition newObjectId (used : list Value) : string :=
  firstFresh (List.length used) 1 used.

(** A potion is refused when it is not an object or its price is not a
    number. *)
Definition validatePotion (payload : Value) : option Error :=
  match payload with
  | VDoc fields =>
      match lookup "price" fields with
      | None | Some (VNum _) => None
      | Some _ =>
          Some (mkError "ValidationError" None
                  "Potion validation failed: price: Cast to Number failed")
      end
  | _ => Some (mkError "ObjectParameterError" None
                 "Parameter obj to Document() must be an object")
  end.

Fixpoint reverse (s : string) : string :=
  match s with
  | EmptyString => EmptyString
  | String c rest => (reverse rest ++ String c EmptyString)%string
  end.

Definition hashPassword (password : string) : string := "$2$" ++ reverse password.

Definition verifyPassword (stored given : string) : bool :=
  String.eqb stored (hashPassword given).

Definition sumDoubles (xs : list spec_float) : spec_float :=
  fold_left (SFadd Num.prec Num.emax) xs (S754_zero false).

Definition config : Mongo.Config :=
  Mongo.mkConfig castObjectId newObjectId validatePotion hashPassword
    verifyPassword sumDoubles.

Fixpoint digits (s : string) (acc : Z) (seen : bool) : option Z :=
  match s with
  | EmptyString => if seen then Some acc else None
  | String c rest =>
      if isDigit c
      then digits rest (10 * acc + Z.of_nat (nat_of_ascii c - 48)) true
      else if seen then Some acc else None
  end.

(** Reads an optionally signed run of decimal digits after any leading
    whitespace, as the built-in does on input without fraction or
    exponent; NaN when there is no digit. *)
Definition parseFloat (s : string) : spec_float :=
  let s := JS.ltrim s in
  let '(neg, s) :=
    match s with
    | String "-" rest => (true, rest)
    | String "+" rest => (false, rest)
    | _ => (false, s)
    end in
  match digits s 0 false with
  | None => S754_nan
  | Some n =>
      binary_normalize Num.prec Num.emax (if neg then - n else n) 0 neg
  end.

Definition bodyString (reqBody : Value) (key : string) : Value :=
  match reqBody with
  | VDoc fields =>
      match lookup key fields with
      | Some (VStr s) => VStr s
      | _ => VNull
      end
  | _ => VNull
  end.

(** A token is the secret followed by the payload's name. *)
Definition jwt_sign (payload : Value) (secret expiresIn : string) : string :=
  match auth.fieldOrNull "name" payload with
  | VStr name => secret ++ "." ++ name
  | _ => secret ++ "."
  end.

Definition jwt_verify (token secret : string) : option Value :=
  if String.prefix (secret ++ ".") token
  then Some (VDoc [ ("name", VStr (Mongo.drop (String.length secret + 1) token)) ])
  else None.

Definition platform : Platform :=
  mkPlatform (fun _ => None) parseFloat bodyString jwt_sign jwt_verify
    (error_body "Unauthorized").

Definition exec : StoreOp -> Mongo.Store -> Settled * Mongo.Store :=
  Mongo.exec config.

Definition num (z : Z) : Value := VNum (Int z).

Definition potion (id name : string) (price strength flavor : Z)
    (vendor : string) : Doc :=
  [ ("_id", VStr id); ("name", VStr name); ("price", num price);
    ("ratings", VDoc [ ("strength", num strength); ("flavor", num flavor) ]);
    ("vendor_id", VStr vendor) ].

Definition catalog : list Doc :=
  [ potion "660bcf5fca6e9f06b8a2eec1" "Elixir" 10 4 2 "v1";
    potion "660bcf5fca6e9f06b8a2eec2" "Philtre" 25 3 0 "v2";
    potion "660bcf5fca6e9f06b8a2eec3" "Tonic" 40 5 4 "v1" ].

Definition store : Mongo.Store :=
  Mongo.mkStore catalog
    [ [ ("_id", VStr "660bceefa25c4f1234abcd12"); ("name", VStr "harrypotter");
        ("password", VStr (hashPassword "azkaban123")) ] ].

(** A session cookie the guard accepts, and the store that is down. *)
Definition session : list (string * string) :=
  [ ("demo_node+mongo_token", "dev_secret.harrypotter") ].

Definition networkError : Error :=
  mkError "MongoNetworkError" None "connect ECONNREFUSED 127.0.0.1:27017".

Definition down (op : StoreOp) (s : unit) : Settled * unit :=
  (Rejected networkError, s).

End Demo.

(** ** Vocabulary of the statements *)

(** The session cookie is present and its token verifies. *)
Definition sessionValid (p : Platform) (reqCookies : list (string * string)) : bool :=
  match JS.assoc (COOKIE_NAME p) reqCookies with
  | Some token =>
      match jwt_verify p token (JWT_SECRET p) with
      | Some _ => true
      | None => false
      end
  | None => false
  end.

(** A price bound as the caller gave it: absent when the parameter is
    missing or does not read as a number. *)
Definition bound (p : Platform) (v : option string) : option spec_float :=
  let x := parseFloatParam p v in
  if JS.isNaN x then None else Some x.

(** The price of the potion lies between the bounds that are given. *)
Definition priceWithin (lo hi : option spec_float) (d : Doc) : bool :=
  match lo, hi with
  | None, None => true
  | _, _ =>
      match lookup "price" d with
      | Some (VNum x) =>
          match lo with Some l => Num.leb (Dbl l) x | None => true end
          && match hi with Some h => Num.leb x (Dbl h) | None => true end
      | _ => false
      end
  end.

(** The price of the potion, when it has one, is a single value. *)
Definition scalarPrice (d : Doc) : bool :=
  match lookup "price" d with
  | Some (VArr _) => false
  | _ => true
  end.

(** The two ratings of a potion, when both are numbers. *)
Definition ratings (d : Doc) : option (number * number) :=
  match lookup "ratings" d with
  | Some (VDoc r) =>
      match lookup "strength" r, lookup "flavor" r with
      | Some (VNum strength), Some (VNum flavor) => Some (strength, flavor)
      | _, _ => None
      end
  | _ => None
  end.

Definition rated (d : Doc) : bool :=
  match ratings d with
  | Some _ => true
  | None => false
  end.

(** The ratio the spec asks for: null when the flavor is zero, else the
    quotient. *)
Definition expectedRatio (d : Doc) : Value :=
  match ratings d with
  | Some (strength, flavor) =>
      if Num.isZero flavor then VNull else VNum (Num.div strength flavor)
  | None => VNull
  end.

(** [groupBy] names a field: a dotted path the store accepts. *)
Definition isFieldPath (groupBy : string) : bool :=
  Mongo.validPath (Mongo.split "." groupBy).

(** [groupBy] has an empty name on its dotted path: a leading, a trailing
    or a doubled dot. *)
Definition hasEmptyName (groupBy : string) : bool :=
  existsb (String.eqb "") (Mongo.split "." groupBy).

(** The value of the [groupBy] field of a potion; null when it has none. *)
Definition groupKey (groupBy : string) (d : Doc) : Value :=
  Mongo.keyOf (Mongo.evaluatePath (Mongo.split "." groupBy) d).

(** How many potions have the value [k] in their [groupBy] field. *)
Definition countOf (groupBy : string) (k : Value) (docs : list Doc) : nat :=
  List.length (filter (fun d => value_eqb k (groupKey groupBy d)) docs).

Fixpoint distinctKeys (keys : list Value) : bool :=
  match keys with
  | [] => true
  | k :: rest => negb (existsb (value_eqb k) rest) && distinctKeys rest
  end.

(** One entry of the answer of a count search. *)
Definition countEntry (e : Value * nat) : Value :=
  VDoc [ ("_id", fst e); ("count", VNum (Int (Z.of_nat (snd e)))) ].

(** The errors of the two fields of a registration, from the sanitized
    values. *)
Definition nameErrors (name : string) : list auth.FieldError :=
  ((if String.eqb name "" then
      [ auth.mkFieldError name "Le nom d’utilisateur est requis." "name" "body" ]
    else [])
   ++ (if ((3 <=? String.length name) && (String.length name <=? 30))%nat then []
       else [ auth.mkFieldError name "Doit faire entre 3 et 30 caractères." "name" "body" ]))%list.

Definition passwordErrors (password : string) : list auth.FieldError :=
  ((if String.eqb password "" then
      [ auth.mkFieldError password "Le mot de passe est requis." "password" "body" ]
    else [])
   ++ (if (6 <=? String.length password)%nat then []
       else [ auth.mkFieldError password "Minimum 6 caractères." "password" "body" ]))%list.

Definition sanitize (v : option string) : string :=
  JS.escape (JS.trim (auth.fieldInput v)).

(** The status of the response, when there is one. *)
Definition statusOf (o : Outcome) : option Z :=
  match o with
  | Responded r => Some (status r)
  | Crashed _ => None
  end.

(** Two numbers are equal when both are NaN, both the same infinity, or
    both finite with the same value. *)
Definition sameValue (x y : Num.xreal) : Prop :=
  match x, y with
  | Num.XNaN, Num.XNaN => True
  | Num.XInf s, Num.XInf t => s = t
  | Num.XFin p, Num.XFin q => Qeq p q
  | _, _ => False
  end.

(** The projection of the ratio pipeline, parsed. *)
Definition ratioSpec : list (string * option Mongo.PExpr) :=
  [ ("name", None);
    ("strengthFlavorRatio",
      Some (Mongo.PCond
              (Mongo.PEq (Mongo.PPath [ "ratings"; "flavor" ])
                         (Mongo.PLit (VNum (Int 0))))
              (Mongo.PLit VNull)
              (Mongo.PDivide (Mongo.PPath [ "ratings"; "strength" ])
                             (Mongo.PPath [ "ratings"; "flavor" ])))) ].

(** What the projection makes of one rated potion. *)
Definition ratioDoc (d : Doc) : Doc :=
  ((match lookup "_id" d with
    | Some v => [ ("_id", v) ]
    | None => []
    end)
   ++ filter (fun kv => Mongo.included ratioSpec (fst kv)
                        && negb (String.eqb (fst kv) "_id")) d
   ++ [ ("strengthFlavorRatio", expectedRatio d) ])%list.

(** The buckets after the documents [docs] have joined [buckets] in order. *)
Definition insertAll (key : Doc -> Value) (docs : list Doc) (buckets : Mongo.Buckets) : Mongo.Buckets :=
  fold_left (fun b d => Mongo.insertBucket (key d) d b) docs buckets.

Definition keyed (k : Value) (b : Value * list Doc) : bool := value_eqb (fst b) k.

Definition joined (k : Value) (d : Doc) (b : Value * list Doc) : Value * list Doc :=
  if keyed k b then (fst b, (snd b ++ [ d ])%list) else b.

(** The buckets have distinct keys; each holds, in order, the documents
    seen so far whose key equals its own, and at least one; and every
    document seen has a bucket. *)
Definition grouped (key : Doc -> Value) (seen : list Doc) (buckets : Mongo.Buckets) : Prop :=
  distinctKeys (map fst buckets) = true
  /\ (forall b, In b buckets ->
        snd b = filter (fun d => value_eqb (fst b) (key d)) seen /\ snd b <> [])
  /\ (forall d, In d seen -> existsb (keyed (key d)) buckets = true).

(** A bucket as the count search reports it: its key and its size. *)
Definition sized (b : Value * list Doc) : Value * nat :=
  (fst b, List.length (snd b)).

(** ** The remaining routes *)

(** [GET /potions]: [Potion.find()] with no filter. *)
Definition listAll : Handler :=
  catching 500 (PotionFind []) (fun potions => Respond (json potions)).

(** [GET /potions/vendor/:vendor_id] (the handler also prints the potions
    it found on the console). *)
Definition listByVendor (vendor_id : string) : Handler :=
  catching 500 (PotionFind [ ("vendor_id", Equals (VStr vendor_id)) ])
    (fun potions => Respond (json potions)).

(** [GET /analytics/average-score-by-vendor] *)
Definition averageScoreByVendor : Handler :=
  catching 500
    (PotionAggregate
       [ Group (EStr "$vendor_id") [ ("averageScore", ("$avg", EStr "$score")) ] ])
    (fun result => Respond (json result)).

(** [GET /auth/logout]: [res.clearCookie(COOKIE_NAME)], then the message. *)
Definition logout (p : Platform) : Handler :=
  Respond (mkResponse 200 (message_body "Déconnecté") [ ClearCookie (COOKIE_NAME p) ]).

(** ** Vocabulary of the further statements *)

(** The handler answered, with one of the given status codes. *)
Definition answers (codes : list Z) (o : Outcome) : bool :=
  match o with
  | Responded r => existsb (Z.eqb (status r)) codes
  | Crashed _ => false
  end.

(** The handler answered with one of the codes, or did not answer at all. *)
Definition answersOrCrashes (codes : list Z) (o : Outcome) : bool :=
  match o with
  | Responded r => existsb (Z.eqb (status r)) codes
  | Crashed _ => true
  end.

(** The calls that only read. *)
Definition isRead (op : StoreOp) : bool :=
  match op with
  | PotionFind _ | PotionFindById _ | PotionAggregate _
  | UserFindOne _ | UserComparePassword _ _ => true
  | _ => false
  end.

Fixpoint everyChar (f : ascii -> bool) (s : string) : bool :=
  match s with
  | EmptyString => true
  | String c rest => f c && everyChar f rest
  end.

(** The characters that open or close markup, or quote or escape in it:
    the double and single quote, the angle brackets, the slash, the
    backslash and the backquote. *)
Definition isMarkup (c : ascii) : bool :=
  match nat_of_ascii c with
  | 34%nat | 39%nat | 60%nat | 62%nat | 47%nat | 92%nat | 96%nat => true
  | _ => false
  end.

Definition markupFree (s : string) : bool :=
  everyChar (fun c => negb (isMarkup c)) s.

(** One row of a grouped answer, under the given name for the value. *)
Definition row (valueName : string) (r : Value * Value) : Value :=
  VDoc [ ("_id", fst r); (valueName, snd r) ].

(** The accumulator a documented metric stands for. *)
Definition metricOp (metric : string) : Mongo.AccOp :=
  if String.eqb metric "avg" then Mongo.AccAvg else Mongo.AccSum.

(** The value a bucket accumulates over the field of its members. *)
Definition accumulated (cfg : Mongo.Config) (op : Mongo.AccOp) (field : string)
    (b : Value * list Doc) : Value * Value :=
  (fst b,
   Mongo.accumulate cfg op (map (Mongo.evaluatePath (Mongo.split "." field)) (snd b))).

(** The calls are reads, and at most [n] of them. *)
Definition readsAtMost (n : nat) (ops : list StoreOp) : bool :=
  forallb isRead ops && (List.length ops <=? n)%nat.

(** The order of values behind [Num.leb]. *)
Definition belowValue (x y : Num.xreal) : Prop :=
  match x, y with
  | Num.XNaN, _ | _, Num.XNaN => False
  | Num.XInf true, _ => True
  | _, Num.XInf false => True
  | Num.XFin p, Num.XFin q => Qle p q
  | _, _ => False
  end.

(** * Properties *)

(** ** Running a handler *)

Section Running.

Variable State : Type.
Variable exec : StoreOp -> State -> Settled * State.

Lemma outcome_await :
  forall op k s,
    outcome exec (Await op k) s = outcome exec (k (fst (exec op s))) (snd (exec op s)).
Proof.
  intros op k s. unfold outcome. cbn [run].
  destruct (exec op s) as [r s']. cbn [fst snd].
  destruct (run exec (k r) s') as [[o cs] s'']. reflexivity.
Qed.

Lemma calls_await :
  forall op k s,
    calls exec (Await op k) s = op :: calls exec (k (fst (exec op s))) (snd (exec op s)).
Proof.
  intros op k s. unfold calls. cbn [run].
  destruct (exec op s) as [r s']. cbn [fst snd].
  destruct (run exec (k r) s') as [[o cs] s'']. reflexivity.
Qed.

End Running.

Lemma authMiddleware_valid :
  forall p reqCookies next,
    sessionValid p reqCookies = true -> authMiddleware p reqCookies next = next.
Proof.
  intros p reqCookies next. unfold sessionValid, authMiddleware.
  destruct (JS.assoc (COOKIE_NAME p) reqCookies) as [token|]; [|discriminate].
  destruct (jwt_verify p token (JWT_SECRET p)); [reflexivity | discriminate].
Qed.

Lemma authMiddleware_invalid :
  forall p reqCookies next,
    sessionValid p reqCookies = false ->
    authMiddleware p reqCookies next = Respond (status_json 401 (unauthorized p)).
Proof.
  intros p reqCookies next. unfold sessionValid, authMiddleware.
  destruct (JS.assoc (COOKIE_NAME p) reqCookies) as [token|]; [|reflexivity].
  destruct (jwt_verify p token (JWT_SECRET p)); [discriminate | reflexivity].
Qed.

(** ** Registration and login *)

(** C9: when a registration passes validation and the insertion of the user
    is rejected, a rejection with code 11000 (the name is taken) is answered
    by the fixed 500 "Erreur système", which says nothing of the name, and
    any other rejection by a 400 carrying the message of the error. *)
Theorem register_insertion_failure :
  forall (State : Type) (exec : StoreOp -> State -> Settled * State)
         (s s' : State) (name password : option string) (n pw : string)
         (err : Error),
    auth.validate name password = (n, pw, []) ->
    exec (UserSave n pw) s = (Rejected err, s') ->
    (err_code err = Some 11000 ->
     outcome exec (auth.register name password) s =
       Responded (status_json 500 (error_body "Erreur système")))
    /\ (err_code err <> Some 11000 ->
        outcome exec (auth.register name password) s =
          Responded (status_json 400 (error_body (err_message err)))).
Proof.
  intros State exec s s' name password n pw err V E.
  unfold auth.register. rewrite V. rewrite outcome_await, E. cbn [fst snd auth.saved].
  split; intro C.
  - rewrite C. reflexivity.
  - destruct (err_code err) as [z|]; [|reflexivity].
    destruct (Z.eq_dec z 11000) as [->|N]; [congruence|].
    destruct z as [|q|q]; try reflexivity.
    repeat (destruct q as [q|q|]; try reflexivity). congruence.
Qed.

Lemma register_insertion_failure_witness :
  auth.validate (Some "harrypotter") (Some "123456") = ("harrypotter", "123456", [])
  /\ Demo.exec (UserSave "harrypotter" "123456") Demo.store
     = (Rejected (Mongo.duplicateKey "harrypotter"), Demo.store)
  /\ outcome Demo.exec (auth.register (Some "harrypotter") (Some "123456")) Demo.store
     = Responded (status_json 500 (error_body "Erreur système")).
Proof.
  split; [reflexivity|]. split; [reflexivity|].
  apply (register_insertion_failure Mongo.Store Demo.exec Demo.store Demo.store
           (Some "harrypotter") (Some "123456") "harrypotter" "123456"
           (Mongo.duplicateKey "harrypotter") eq_refl eq_refl).
  reflexivity.
Defined.

(** C2: a login whose name is known but whose password does not match, and
    a login whose name is unknown, end with the same response: the 401
    "Identifiants invalides", with no cookie and nothing else in it. *)
Theorem login_failures_indistinguishable :
  forall (State : Type) (exec : StoreOp -> State -> Settled * State)
         (p : Platform) (known unknown : Value) (s1 s1' s1'' s2 s2' : State)
         (user matched nobody : Value),
    exec (UserFindOne [ ("name", Equals (bodyString p known "name")) ]) s1
      = (Fulfilled user, s1') ->
    truthy user = true ->
    exec (UserComparePassword user (bodyString p known "password")) s1'
      = (Fulfilled matched, s1'') ->
    truthy matched = false ->
    exec (UserFindOne [ ("name", Equals (bodyString p unknown "name")) ]) s2
      = (Fulfilled nobody, s2') ->
    truthy nobody = false ->
    outcome exec (auth.login p known) s1 = outcome exec (auth.login p unknown) s2
    /\ outcome exec (auth.login p known) s1
       = Responded (mkResponse 401 (VDoc [ ("error", VStr "Identifiants invalides") ]) []).
Proof.
  intros State exec p known unknown s1 s1' s1'' s2 s2' user matched nobody
         F1 T1 C1 T2 F2 T3.
  assert (K : outcome exec (auth.login p known) s1 = Responded auth.invalidCredentials).
  { unfold auth.login. rewrite outcome_await, F1. cbn [fst snd]. rewrite T1.
    cbn [negb]. rewrite outcome_await, C1. cbn [fst snd]. rewrite T2. reflexivity. }
  assert (U : outcome exec (auth.login p unknown) s2 = Responded auth.invalidCredentials).
  { unfold auth.login. rewrite outcome_await, F2. cbn [fst snd]. rewrite T3. reflexivity. }
  split; [congruence | exact K].
Qed.

Lemma login_failures_indistinguishable_witness :
  let known := VDoc [ ("name", VStr "harrypotter"); ("password", VStr "alohomora") ] in
  let unknown := VDoc [ ("name", VStr "voldemort"); ("password", VStr "azkaban123") ] in
  outcome Demo.exec (auth.login Demo.platform known) Demo.store
  = outcome Demo.exec (auth.login Demo.platform unknown) Demo.store
  /\ outcome Demo.exec (auth.login Demo.platform known) Demo.store
     = Responded (mkResponse 401 (VDoc [ ("error", VStr "Identifiants invalides") ]) []).
Proof.
  exact (login_failures_indistinguishable Mongo.Store Demo.exec Demo.platform
           (VDoc [ ("name", VStr "harrypotter"); ("password", VStr "alohomora") ])
           (VDoc [ ("name", VStr "voldemort"); ("password", VStr "azkaban123") ])
           Demo.store Demo.store Demo.store Demo.store Demo.store
           (VDoc [ ("_id", VStr "660bceefa25c4f1234abcd12");
                   ("name", VStr "harrypotter");
                   ("password", VStr (Demo.hashPassword "azkaban123")) ])
           (VBool false) VNull
           eq_refl eq_refl eq_refl eq_refl eq_refl eq_refl).
Defined.

(** C8: the two fields of a registration are trimmed, then HTML-escaped,
    and the checks read the escaped text.  The request is answered 400 with
    the errors of the name followed by the errors of the password, each with
    its field and message, exactly when the escaped name is not 3 to 30
    characters long or the escaped password is shorter than 6; otherwise the
    escaped fields are saved.  A name shorter than 3 after escaping has the
    length error on [name], a password shorter than 6 after escaping has the
    length error on [password]. *)
Theorem register_validation :
  forall name password : option string,
    let n := sanitize name in
    let pw := sanitize password in
    let errors := (nameErrors n ++ passwordErrors pw)%list in
    auth.validate name password = (n, pw, errors)
    /\ auth.register name password =
         (if ((3 <=? String.length n) && (String.length n <=? 30)
              && (6 <=? String.length pw))%nat
          then Await (UserSave n pw) auth.saved
          else Respond (status_json 400
                          (VDoc [ ("errors", VArr (map auth.errorValue errors)) ])))
    /\ ((String.length n < 3)%nat ->
        In (auth.mkFieldError n "Doit faire entre 3 et 30 caractères." "name" "body")
           errors)
    /\ ((String.length pw < 6)%nat ->
        In (auth.mkFieldError pw "Minimum 6 caractères." "password" "body") errors).
Proof.
  intros name password n pw errors.
  assert (V : auth.validate name password = (n, pw, errors)).
  { unfold auth.validate, auth.nameChain, auth.passwordChain. cbn [auth.runChain].
    fold (sanitize name) (sanitize password). fold n pw.
    unfold errors, nameErrors, passwordErrors, auth.notEmpty, auth.isLength.
    destruct (String.eqb n ""), (String.eqb pw "");
      destruct ((3 <=? String.length n) && (String.length n <=? 30))%nat;
      destruct (6 <=? String.length pw)%nat; reflexivity. }
  split; [exact V|]. split.
  - unfold auth.register. rewrite V. unfold errors, nameErrors, passwordErrors.
    destruct (String.eqb n "") eqn:En.
    + apply String.eqb_eq in En. rewrite En. reflexivity.
    + destruct ((3 <=? String.length n) && (String.length n <=? 30))%nat; [|reflexivity].
      destruct (String.eqb pw "") eqn:Ep.
      * apply String.eqb_eq in Ep. rewrite Ep. reflexivity.
      * destruct (6 <=? String.length pw)%nat; reflexivity.
  - split; intro L; unfold errors, nameErrors, passwordErrors; apply in_or_app.
    + left. apply in_or_app. right.
      replace (3 <=? String.length n)%nat with false
        by (symmetry; apply Nat.leb_gt; exact L).
      left. reflexivity.
    + right. apply in_or_app. right.
      replace (6 <=? String.length pw)%nat with false
        by (symmetry; apply Nat.leb_gt; exact L).
      left. reflexivity.
Qed.

Lemma register_validation_witness :
  (String.length (sanitize (Some " ab ")) < 3)%nat
  /\ In (auth.mkFieldError "ab" "Doit faire entre 3 et 30 caractères." "name" "body")
        (nameErrors (sanitize (Some " ab ")) ++ passwordErrors (sanitize (Some "12345"))).
Proof.
  split.
  - apply Nat.ltb_lt. reflexivity.
  - apply (proj1 (proj2 (proj2 (register_validation (Some " ab ") (Some "12345"))))).
    apply Nat.ltb_lt. reflexivity.
Defined.

(** C8, as stated, fails: a name of two characters and a password of five
    pass validation when escaping lengthens them, and the user is saved. *)
Lemma register_escaped_lengths_counterexample :
  String.length (JS.trim "<>") = 2%nat
  /\ String.length (JS.trim "&&&&&") = 5%nat
  /\ auth.validate (Some "<>") (Some "&&&&&")
     = ("&lt;&gt;", "&amp;&amp;&amp;&amp;&amp;", [])
  /\ auth.register (Some "<>") (Some "&&&&&")
     = Await (UserSave "&lt;&gt;" "&amp;&amp;&amp;&amp;&amp;") auth.saved
  /\ outcome Demo.exec (auth.register (Some "<>") (Some "&&&&&")) Demo.store
     = Responded (status_json 201 (message_body "Utilisateur créé")).
Proof. repeat split; reflexivity. Qed.

(** ** The potions router *)

Lemma value_eqb_VStr :
  forall v s, value_eqb v (VStr s) = true -> v = VStr s.
Proof.
  intros v s H. destruct v; try discriminate.
  cbn in H. apply String.eqb_eq in H. congruence.
Qed.

Lemma hasId_true :
  forall oid doc, Mongo.hasId oid doc = true <-> lookup "_id" doc = Some (VStr oid).
Proof.
  intros oid doc. unfold Mongo.hasId, Mongo.opt_eqb. split.
  - destruct (lookup "_id" doc) as [v|]; [|discriminate].
    intro H. apply value_eqb_VStr in H. congruence.
  - intros ->. cbn. apply String.eqb_refl.
Qed.

Lemma findOneById_Some :
  forall oid docs doc,
    Mongo.findOneById oid docs = Some doc ->
    In doc docs /\ lookup "_id" doc = Some (VStr oid).
Proof.
  intros oid docs doc H. apply find_some in H. destruct H as [I H].
  split; [exact I | apply hasId_true; exact H].
Qed.

Lemma findOneById_None :
  forall oid docs,
    Mongo.findOneById oid docs = None ->
    Forall (fun d => lookup "_id" d <> Some (VStr oid)) docs.
Proof.
  intros oid docs H. apply Forall_forall. intros d I E.
  apply hasId_true in E. pose proof (find_none _ _ H d I) as N. congruence.
Qed.

(** C1: for every identifier, [getById] answers with the potion whose
    identifier is the cast of the parameter when the catalog has one, with
    404 when the parameter casts to an identifier no potion has, and with
    500 and the message of the cast error when the parameter does not cast
    to an identifier. *)
Theorem getById_outcome :
  forall (cfg : Mongo.Config) (s : Mongo.Store) (id : string),
    match Mongo.castObjectId cfg id with
    | None =>
        outcome (Mongo.exec cfg) (potions.getById id) s
        = Responded (status_json 500 (error_body (err_message (Mongo.castError id))))
    | Some oid =>
        match Mongo.findOneById oid (Mongo.potions s) with
        | Some doc =>
            outcome (Mongo.exec cfg) (potions.getById id) s = Responded (json (VDoc doc))
            /\ In doc (Mongo.potions s)
            /\ lookup "_id" doc = Some (VStr oid)
        | None =>
            outcome (Mongo.exec cfg) (potions.getById id) s = Responded potions.notFound
            /\ Forall (fun d => lookup "_id" d <> Some (VStr oid)) (Mongo.potions s)
        end
    end.
Proof.
  intros cfg s id. unfold potions.getById, catching.
  rewrite outcome_await. cbn [Mongo.exec].
  destruct (Mongo.castObjectId cfg id) as [oid|]; [|reflexivity].
  destruct (Mongo.findOneById oid (Mongo.potions s)) as [doc|] eqn:F.
  - split; [reflexivity|]. apply findOneById_Some. exact F.
  - split; [reflexivity|]. apply findOneById_None. exact F.
Qed.

(** C1, as stated, fails: a malformed identifier is answered 500, not 404. *)
Lemma getById_malformed_id_counterexample :
  Demo.castObjectId "abc" = None
  /\ statusOf (outcome Demo.exec (potions.getById "abc") Demo.store) = Some 500
  /\ outcome Demo.exec (potions.getById "abc") Demo.store <> Responded potions.notFound.
Proof. repeat split; try reflexivity. discriminate. Qed.

(** C7: without a valid session cookie [update] and [delete] answer 401 and
    make no call on the store.  With one, they answer 404 when the parameter
    casts to an identifier no potion has, and 500 when it does not cast to an
    identifier; when the potion exists [delete] confirms and [update] answers
    200 or, if the store refuses the change, 500. *)
Theorem update_delete_guarded :
  forall (p : Platform) (cfg : Mongo.Config) (reqCookies : list (string * string))
         (id : string) (payload : Value) (s : Mongo.Store),
    let updating := potions.update p reqCookies id payload in
    let deleting := potions.delete p reqCookies id in
    if sessionValid p reqCookies then
      match Mongo.castObjectId cfg id with
      | None =>
          outcome (Mongo.exec cfg) updating s
          = Responded (status_json 500 (error_body (err_message (Mongo.castError id))))
          /\ outcome (Mongo.exec cfg) deleting s
             = Responded (status_json 500 (error_body (err_message (Mongo.castError id))))
      | Some oid =>
          match Mongo.findOneById oid (Mongo.potions s) with
          | None =>
              outcome (Mongo.exec cfg) updating s = Responded potions.notFound
              /\ outcome (Mongo.exec cfg) deleting s = Responded potions.notFound
              /\ Forall (fun d => lookup "_id" d <> Some (VStr oid)) (Mongo.potions s)
          | Some doc =>
              outcome (Mongo.exec cfg) deleting s
              = Responded (json (message_body "Potion supprimée"))
              /\ exists r, outcome (Mongo.exec cfg) updating s = Responded r
                           /\ (status r = 200 \/ status r = 500)
          end
      end
    else
      run (Mongo.exec cfg) updating s
      = (Responded (status_json 401 (unauthorized p)), [], s)
      /\ run (Mongo.exec cfg) deleting s
         = (Responded (status_json 401 (unauthorized p)), [], s).
Proof.
  intros p cfg reqCookies id payload s updating deleting.
  unfold updating, deleting, potions.update, potions.delete.
  destruct (sessionValid p reqCookies) eqn:V.
  - rewrite !authMiddleware_valid by exact V. unfold catching.
    rewrite !outcome_await. cbn [Mongo.exec].
    destruct (Mongo.castObjectId cfg id) as [oid|]; [|split; reflexivity].
    destruct (Mongo.findOneById oid (Mongo.potions s)) as [doc|] eqn:F.
    + split; [reflexivity|].
      destruct payload as [| | | | |fields];
        try (eexists; split; [reflexivity | left; reflexivity]).
      destruct (Mongo.opt_eqb (lookup "_id" fields) None
                || Mongo.opt_eqb (lookup "_id" fields) (lookup "_id" doc));
        eexists; (split; [reflexivity|]); [left | right]; reflexivity.
    + repeat split; try reflexivity. apply findOneById_None. exact F.
  - rewrite !authMiddleware_invalid by exact V. split; reflexivity.
Qed.

(** C7, as stated, fails: with a valid session, an identifier that no
    potion has is answered 500, not 404, when it is malformed. *)
Lemma delete_malformed_id_counterexample :
  sessionValid Demo.platform Demo.session = true
  /\ Forall (fun d => lookup "_id" d <> Some (VStr "abc")) (Mongo.potions Demo.store)
  /\ statusOf (outcome Demo.exec
                 (potions.delete Demo.platform Demo.session "abc") Demo.store)
     = Some 500
  /\ statusOf (outcome Demo.exec
                 (potions.update Demo.platform Demo.session "abc"
                    (VDoc [ ("price", Demo.num 12) ]))
                 Demo.store)
     = Some 500.
Proof.
  split; [reflexivity|]. split; [|split; reflexivity].
  repeat constructor; discriminate.
Qed.

(** The answers of [create] behind a valid session. *)
Lemma create_outcome :
  forall (State : Type) (exec : StoreOp -> State -> Settled * State)
         (p : Platform) (reqCookies : list (string * string)) (payload : Value)
         (s : State),
    sessionValid p reqCookies = true ->
    outcome exec (potions.create p reqCookies payload) s =
      match fst (exec (PotionSave payload) s) with
      | Fulfilled savedPotion => Responded (status_json 201 savedPotion)
      | Rejected err => Responded (status_json 400 (error_body (err_message err)))
      end.
Proof.
  intros State exec p reqCookies payload s V. unfold potions.create.
  rewrite authMiddleware_valid by exact V. unfold catching.
  rewrite outcome_await. destruct (fst (exec (PotionSave payload) s)); reflexivity.
Qed.

(** C10: behind a valid session, when the store is unreachable the save is
    rejected with a network error and [create] answers 400 with the message
    of that error; the one call made is the save. *)
Theorem create_store_failure_answers_400 :
  forall payload : Value,
    sessionValid Demo.platform Demo.session = true
    /\ run Demo.down (potions.create Demo.platform Demo.session payload) tt
       = (Responded (status_json 400 (error_body (err_message Demo.networkError))),
          [ PotionSave payload ], tt).
Proof. intro payload. split; reflexivity. Qed.

(** ** The analytics router *)

(** A metric that is no property of [allowedMetrics], own or inherited, is
    rejected with 400 and no call on the store. *)
Lemma search_rejects_unknown_metric :
  forall (State : Type) (exec : StoreOp -> State -> Settled * State) (s : State)
         (groupBy metric field : option string),
    JS.get analytics.allowedMetrics metric = JS.PUndefined ->
    run exec (analytics.search groupBy metric field) s
    = (Responded (status_json 400 (error_body "Paramètres invalides")), [], s).
Proof.
  intros State exec s groupBy metric field U. unfold analytics.search.
  rewrite U. reflexivity.
Qed.

(** C3: the metric [constructor] is none of avg, sum and count, yet the
    request is not rejected: the lookup in [allowedMetrics] finds the
    inherited property, the aggregation is sent to the store with the text
    of that function as its operator, and the answer is never the 400. *)
Theorem search_inherited_metric_reaches_store :
  forall (State : Type) (exec : StoreOp -> State -> Settled * State) (s : State),
    let request :=
      analytics.search (Some "vendor_id") (Some "constructor") (Some "score") in
    JS.assoc "constructor" analytics.allowedMetrics = None
    /\ calls exec request s
       = [ PotionAggregate
             [ Group (EStr "$vendor_id")
                 [ ("result", ("function Object() { [native code] }", EStr "$score")) ] ] ]
    /\ statusOf (outcome exec request s) <> Some 400
    /\ statusOf (outcome Demo.exec request Demo.store) = Some 500.
Proof.
  intros State exec s request. split; [reflexivity|].
  unfold request, analytics.search. cbn [JS.get JS.toString JS.assoc analytics.allowedMetrics].
  cbn -[catching Demo.exec Demo.store]. unfold catching.
  rewrite calls_await, outcome_await.
  destruct (exec _ s) as [[v|e] s']; cbn [fst snd];
    (split; [reflexivity|]); (split; [|reflexivity]); discriminate.
Qed.

(** ** Equality and order of stored values *)

Lemma Qcompare_refl_eq : forall q : Q, Qcompare q q = Eq.
Proof. intro q. apply Qeq_alt. apply Qeq_refl. Qed.

Lemma Num_compare_antisym :
  forall a b, Num.compare b a = option_map CompOpp (Num.compare a b).
Proof.
  intros a b. unfold Num.compare.
  destruct (Num.exact a) as [|sa|qa], (Num.exact b) as [|sb|qb]; cbn;
    try reflexivity.
  - destruct sa, sb; reflexivity.
  - destruct sa; reflexivity.
  - destruct sb; reflexivity.
  - rewrite <- Qcompare_antisym. reflexivity.
Qed.

Lemma Num_eqb_refl : forall a, Num.eqb a a = true.
Proof.
  intro a. unfold Num.eqb, Num.compare, Num.isNaN.
  destruct (Num.exact a) as [|s|q]; cbn.
  - reflexivity.
  - destruct s; reflexivity.
  - rewrite Qcompare_refl_eq. reflexivity.
Qed.

Lemma Num_eqb_sym : forall a b, Num.eqb a b = Num.eqb b a.
Proof.
  intros a b. unfold Num.eqb. rewrite (Num_compare_antisym a b).
  destruct (Num.compare a b) as [[| |]|]; cbn; try reflexivity.
  apply andb_comm.
Qed.

Lemma Num_eqb_true :
  forall a b, Num.eqb a b = true <-> sameValue (Num.exact a) (Num.exact b).
Proof.
  intros a b. unfold Num.eqb, Num.compare, Num.isNaN, sameValue.
  destruct (Num.exact a) as [|sa|qa], (Num.exact b) as [|sb|qb]; cbn;
    try (split; [discriminate | contradiction]);
    try (split; [reflexivity | intros _; exact I]).
  - split; [intros _; exact I | reflexivity].
  - destruct sa, sb; split; intro H; (reflexivity || discriminate).
  - destruct sa; split; (discriminate || contradiction).
  - destruct sb; split; (discriminate || contradiction).
  - rewrite Qeq_alt. destruct (qa ?= qb)%Q; split; intro H; (reflexivity || discriminate).
Qed.

Lemma Num_eqb_trans :
  forall a b c, Num.eqb a b = true -> Num.eqb b c = true -> Num.eqb a c = true.
Proof.
  intros a b c. rewrite !Num_eqb_true. unfold sameValue.
  destruct (Num.exact a), (Num.exact b), (Num.exact c);
    try contradiction; try (intros; exact I); try congruence.
  apply Qeq_trans.
Qed.

Lemma Num_eqb_zero : forall n, Num.eqb n (Int 0) = Num.isZero n.
Proof.
  intro n. unfold Num.eqb, Num.compare, Num.isZero, Num.isNaN.
  destruct (Num.exact n) as [|s|q]; cbn.
  - reflexivity.
  - destruct s; reflexivity.
  - change (inject_Z 0) with 0%Q.
    destruct (Qeq_bool q 0) eqn:E.
    + apply Qeq_bool_iff, Qeq_alt in E. rewrite E. reflexivity.
    + destruct (q ?= 0)%Q eqn:C; try reflexivity.
      apply Qeq_alt, Qeq_bool_iff in C. congruence.
Qed.

Lemma value_eqb_refl : forall v, value_eqb v v = true.
Proof.
  induction v using Value_nested_ind; cbn.
  - reflexivity.
  - apply Bool.eqb_reflx.
  - apply Num_eqb_refl.
  - apply String.eqb_refl.
  - induction H as [|x rest Hx _ IH]; [reflexivity|].
    rewrite Hx, IH. reflexivity.
  - induction H as [|[k x] rest Hx _ IH]; [reflexivity|].
    cbn in Hx. rewrite String.eqb_refl, Hx, IH. reflexivity.
Qed.

Lemma value_eqb_sym : forall a b, value_eqb a b = value_eqb b a.
Proof.
  induction a using Value_nested_ind; intros [| c | m | t | ys | ys]; cbn;
    try reflexivity.
  - destruct b, c; reflexivity.
  - apply Num_eqb_sym.
  - apply String.eqb_sym.
  - revert ys. induction H as [|x rest Hx _ IH]; intros [|y ys]; try reflexivity.
    rewrite Hx, IH. reflexivity.
  - revert ys. induction H as [|[k x] rest Hx _ IH]; intros [|[l y] ys];
      try reflexivity.
    cbn in Hx. rewrite Hx, IH, (String.eqb_sym k l). reflexivity.
Qed.

Lemma value_eqb_trans :
  forall a b c, value_eqb a b = true -> value_eqb b c = true -> value_eqb a c = true.
Proof.
  induction a using Value_nested_ind;
    intros [| b1 | m1 | t1 | ys | ys] [| b2 | m2 | t2 | zs | zs]; cbn;
    try discriminate; try (intros; reflexivity).
  - intros E1 E2. apply Bool.eqb_prop in E1, E2. subst. apply Bool.eqb_reflx.
  - apply Num_eqb_trans.
  - intros E1 E2. apply String.eqb_eq in E1, E2. subst. apply String.eqb_refl.
  - revert ys zs. induction H as [|x rest Hx _ IH]; intros [|y ys] [|z zs];
      try discriminate; try (intros; reflexivity).
    intros E1 E2. apply andb_prop in E1, E2.
    destruct E1 as [E1 R1], E2 as [E2 R2].
    rewrite (Hx _ _ E1 E2), (IH _ _ R1 R2). reflexivity.
  - revert ys zs. induction H as [|[k x] rest Hx _ IH];
      intros [|[l y] ys] [|[m z] zs]; try discriminate; try (intros; reflexivity).
    intros E1 E2. apply andb_prop in E1, E2.
    destruct E1 as [E1 R1], E2 as [E2 R2].
    apply andb_prop in E1, E2. destruct E1 as [K1 E1], E2 as [K2 E2].
    apply String.eqb_eq in K1, K2. subst. cbn in Hx.
    rewrite String.eqb_refl, (Hx _ _ E1 E2), (IH _ _ R1 R2). reflexivity.
Qed.

(** ** Price range *)

Lemma Num_isNaN_Dbl : forall x, Num.isNaN (Dbl x) = JS.isNaN x.
Proof. intros [s|s| |s m e]; reflexivity. Qed.

Lemma holds_lte :
  forall x b, Num.isNaN b = false -> Mongo.holds Mongo.CLte x b = Num.leb x b.
Proof.
  intros x b N. unfold Mongo.holds, Num.leb.
  destruct (Num.compare x b) as [[| |]|]; try reflexivity.
  rewrite N. apply andb_false_r.
Qed.

Lemma holds_gte :
  forall x b, Num.isNaN b = false -> Mongo.holds Mongo.CGte x b = Num.leb b x.
Proof.
  intros x b N. unfold Mongo.holds, Num.leb. rewrite (Num_compare_antisym x b).
  destruct (Num.compare x b) as [[| |]|]; try reflexivity.
  rewrite N. apply andb_false_r.
Qed.

Lemma meets_scalar :
  forall c b d,
    scalarPrice d = true ->
    Mongo.meets c b (lookup "price" d) =
      match lookup "price" d with
      | Some (VNum x) => Mongo.holds c x b
      | _ => false
      end.
Proof.
  intros c b d. unfold scalarPrice, Mongo.meets.
  destruct (lookup "price" d) as [[| | | | |]|]; try reflexivity. discriminate.
Qed.

Lemma filter_all : forall (A : Type) (l : list A), filter (fun _ => true) l = l.
Proof. induction l as [|a l IH]; [reflexivity | cbn; rewrite IH; reflexivity]. Qed.

Lemma find_priceQuery :
  forall (p : Platform) (min max : option string) (docs : list Doc),
    Forall (fun d => scalarPrice d = true) docs ->
    Mongo.find (potions.priceQuery p min max) docs
    = Mongo.Ok (filter (priceWithin (bound p min) (bound p max)) docs).
Proof.
  intros p min max docs W.
  unfold potions.priceQuery, potions.priceFilter, bound.
  destruct (JS.isNaN (parseFloatParam p min)) eqn:Nmin;
    destruct (JS.isNaN (parseFloatParam p max)) eqn:Nmax;
    cbn; f_equal; try apply filter_all;
    apply filter_ext_in; intros d I;
    pose proof (proj1 (Forall_forall _ _) W d I) as Wd; cbn in Wd;
    unfold Mongo.matches, priceWithin;
    cbn [forallb Mongo.matchesCondition fst snd];
    rewrite !meets_scalar by exact Wd;
    destruct (lookup "price" d) as [[| |x| | |]|]; try reflexivity;
    rewrite ?holds_gte, ?holds_lte by (rewrite Num_isNaN_Dbl; assumption);
    rewrite ?andb_true_r; reflexivity.
Qed.

(** C6: on a catalog whose prices are single values, [priceRange] answers
    with exactly the potions whose price lies between the bounds given; a
    bound that is absent or that [parseFloat] reads as NaN is no bound, and
    raises no error; with no bound at all the answer is the whole catalog,
    and with only [min] it is the potions whose price is at least [min]. *)
Theorem priceRange_filters_by_bounds :
  forall (p : Platform) (cfg : Mongo.Config) (s : Mongo.Store)
         (min max : option string),
    Forall (fun d => scalarPrice d = true) (Mongo.potions s) ->
    outcome (Mongo.exec cfg) (potions.priceRange p min max) s
    = Responded (json (VArr (map VDoc
        (filter (priceWithin (bound p min) (bound p max)) (Mongo.potions s)))))
    /\ (bound p min = None -> bound p max = None ->
        outcome (Mongo.exec cfg) (potions.priceRange p min max) s
        = Responded (json (VArr (map VDoc (Mongo.potions s)))))
    /\ (forall lo, bound p min = Some lo -> bound p max = None ->
        outcome (Mongo.exec cfg) (potions.priceRange p min max) s
        = Responded (json (VArr (map VDoc
            (filter (fun d => match lookup "price" d with
                              | Some (VNum x) => Num.leb (Dbl lo) x
                              | _ => false
                              end) (Mongo.potions s)))))).
Proof.
  intros p cfg s min max W.
  assert (R : outcome (Mongo.exec cfg) (potions.priceRange p min max) s
              = Responded (json (VArr (map VDoc
                  (filter (priceWithin (bound p min) (bound p max)) (Mongo.potions s)))))).
  { unfold potions.priceRange, catching. rewrite outcome_await.
    cbn [Mongo.exec fst snd]. rewrite (find_priceQuery p min max _ W). reflexivity. }
  split; [exact R|]. split.
  - intros Bmin Bmax. rewrite R, Bmin, Bmax. cbn [priceWithin].
    rewrite filter_all. reflexivity.
  - intros lo Bmin Bmax. rewrite R, Bmin, Bmax. do 4 f_equal.
    apply filter_ext. intro d. unfold priceWithin.
    destruct (lookup "price" d) as [[| |x| | |]|]; try reflexivity.
    apply andb_true_r.
Qed.

Lemma priceRange_filters_by_bounds_witness :
  Forall (fun d => scalarPrice d = true) (Mongo.potions Demo.store)
  /\ outcome Demo.exec (potions.priceRange Demo.platform (Some "20") None) Demo.store
     = Responded (json (VArr
         [ VDoc (Demo.potion "660bcf5fca6e9f06b8a2eec2" "Philtre" 25 3 0 "v2");
           VDoc (Demo.potion "660bcf5fca6e9f06b8a2eec3" "Tonic" 40 5 4 "v1") ])).
Proof.
  assert (W : Forall (fun d => scalarPrice d = true) (Mongo.potions Demo.store))
    by (repeat constructor).
  split; [exact W|].
  exact (proj1 (priceRange_filters_by_bounds Demo.platform Demo.config Demo.store
                  (Some "20") None W)).
Defined.

(** C6, as stated, fails: the malformed bound [20abc] is not ignored;
    [parseFloat] reads its leading digits, and it is applied as the bound 20,
    so that the potion priced 10 is left out of the answer. *)
Lemma priceRange_malformed_bound_counterexample :
  bound Demo.platform (Some "20abc") = bound Demo.platform (Some "20")
  /\ bound Demo.platform (Some "20abc") <> None
  /\ outcome Demo.exec (potions.priceRange Demo.platform (Some "20abc") None)
       Demo.store
     = Responded (json (VArr
         [ VDoc (Demo.potion "660bcf5fca6e9f06b8a2eec2" "Philtre" 25 3 0 "v2");
           VDoc (Demo.potion "660bcf5fca6e9f06b8a2eec3" "Tonic" 40 5 4 "v1") ]))
  /\ outcome Demo.exec (potions.priceRange Demo.platform None None) Demo.store
     = Responded (json (VArr (map VDoc Demo.catalog))).
Proof. repeat split; try reflexivity. discriminate. Qed.

(** ** Strength to flavor ratio *)

Lemma lookup_app :
  forall k (a b : Doc),
    lookup k (a ++ b)%list = match lookup k a with
                        | Some v => Some v
                        | None => lookup k b
                        end.
Proof.
  intros k a b. induction a as [|[k' v] a IH]; [reflexivity|].
  cbn. destruct (String.eqb k k'); [reflexivity | exact IH].
Qed.

Lemma lookup_filter_out :
  forall k (f : string * Value -> bool) (d : Doc),
    (forall v, f (k, v) = false) -> lookup k (filter f d) = None.
Proof.
  intros k f d H. induction d as [|[k' v] d IH]; [reflexivity|].
  cbn. destruct (f (k', v)) eqn:F; [|exact IH].
  cbn. destruct (String.eqb k k') eqn:E; [|exact IH].
  apply String.eqb_eq in E. subst. rewrite H in F. discriminate.
Qed.

Lemma lookup_filter_in :
  forall k (f : string * Value -> bool) (d : Doc),
    (forall v, f (k, v) = true) -> lookup k (filter f d) = lookup k d.
Proof.
  intros k f d H. induction d as [|[k' v] d IH]; [reflexivity|].
  cbn. destruct (String.eqb k k') eqn:E.
  - apply String.eqb_eq in E. subst. rewrite H. cbn. rewrite String.eqb_refl.
    reflexivity.
  - destruct (f (k', v)); [|exact IH]. cbn. rewrite E. exact IH.
Qed.

Lemma parse_ratio_pipeline :
  Mongo.mapM Mongo.parseStage analytics.strengthFlavorRatioPipeline
  = Mongo.Ok [ Mongo.PProject ratioSpec ].
Proof. reflexivity. Qed.

Lemma projectDoc_rated :
  forall d, rated d = true -> Mongo.projectDoc ratioSpec d = Mongo.Ok (ratioDoc d).
Proof.
  intros d. unfold rated, ratioDoc, expectedRatio, ratings.
  destruct (lookup "ratings" d) as [[| | | | |r]|] eqn:R; try discriminate.
  destruct (lookup "strength" r) as [[| |st| | |]|] eqn:St; try discriminate.
  destruct (lookup "flavor" r) as [[| |fl| | |]|] eqn:Fl; try discriminate.
  intros _. unfold Mongo.projectDoc, ratioSpec.
  cbn [Mongo.mapM Mongo.computeField Mongo.bind snd fst Mongo.eval
       Mongo.evaluatePath].
  rewrite R. cbn [Mongo.evaluatePath]. rewrite St, Fl.
  cbn [Mongo.bind Mongo.opt_eqb value_eqb]. rewrite Num_eqb_zero.
  destruct (Num.isZero fl) eqn:Z; cbn [Mongo.coerceToBool Mongo.bind Mongo.eval
    Mongo.evaluatePath]; rewrite ?R; cbn [Mongo.evaluatePath Mongo.bind];
    rewrite ?St, ?Fl; cbn [Mongo.bind Mongo.divide]; rewrite ?Z; reflexivity.
Qed.

Lemma ratioDoc_fields :
  forall d,
    lookup "strengthFlavorRatio" (ratioDoc d) = Some (expectedRatio d)
    /\ lookup "name" (ratioDoc d) = lookup "name" d
    /\ lookup "_id" (ratioDoc d) = lookup "_id" d.
Proof.
  intro d. unfold ratioDoc. rewrite !lookup_app. repeat split.
  - rewrite lookup_filter_out by (intro v; reflexivity).
    destruct (lookup "_id" d); reflexivity.
  - rewrite lookup_filter_in by (intro v; reflexivity).
    destruct (lookup "_id" d); cbn; destruct (lookup "name" d); reflexivity.
  - rewrite lookup_filter_out by (intro v; reflexivity).
    destruct (lookup "_id" d); reflexivity.
Qed.

Lemma mapM_projectDoc_rated :
  forall docs,
    Forall (fun d => rated d = true) docs ->
    Mongo.mapM (Mongo.projectDoc ratioSpec) docs = Mongo.Ok (map ratioDoc docs).
Proof.
  intros docs H. induction H as [|d docs Hd _ IH]; [reflexivity|].
  cbn [Mongo.mapM map]. rewrite (projectDoc_rated d Hd), IH. reflexivity.
Qed.

(** C5: on a catalog whose potions all have numeric ratings, the
    aggregation succeeds and lists one entry per potion, in order, with the
    potion's identifier and name; its ratio is null when the flavor is zero,
    and the quotient of strength by flavor otherwise. *)
Theorem strengthFlavorRatio_per_potion :
  forall (cfg : Mongo.Config) (s : Mongo.Store),
    Forall (fun d => rated d = true) (Mongo.potions s) ->
    exists out : list Doc,
      outcome (Mongo.exec cfg) analytics.strengthFlavorRatio s
      = Responded (json (VArr (map VDoc out)))
      /\ Forall2
           (fun d o =>
              lookup "strengthFlavorRatio" o
              = match ratings d with
                | Some (strength, flavor) =>
                    Some (if Num.isZero flavor then VNull
                          else VNum (Num.div strength flavor))
                | None => None
                end
              /\ lookup "name" o = lookup "name" d
              /\ lookup "_id" o = lookup "_id" d)
           (Mongo.potions s) out.
Proof.
  intros cfg s H. exists (map ratioDoc (Mongo.potions s)). split.
  - unfold analytics.strengthFlavorRatio, catching. rewrite outcome_await.
    cbn [Mongo.exec fst snd]. unfold Mongo.aggregate.
    rewrite parse_ratio_pipeline.
    cbn [Mongo.bind Mongo.runStages Mongo.runStage].
    rewrite (mapM_projectDoc_rated _ H). reflexivity.
  - induction H as [|d docs Hd _ IH]; constructor; [|exact IH].
    destruct (ratioDoc_fields d) as (R & N & I). rewrite R, N, I.
    unfold expectedRatio. unfold rated in Hd.
    destruct (ratings d) as [[st fl]|]; [|discriminate]. repeat split.
Qed.

Lemma strengthFlavorRatio_per_potion_witness :
  Forall (fun d => rated d = true) (Mongo.potions Demo.store)
  /\ exists out : list Doc,
       outcome Demo.exec analytics.strengthFlavorRatio Demo.store
       = Responded (json (VArr (map VDoc out)))
       /\ Forall2
            (fun d o =>
               lookup "strengthFlavorRatio" o
               = match ratings d with
                 | Some (strength, flavor) =>
                     Some (if Num.isZero flavor then VNull
                           else VNum (Num.div strength flavor))
                 | None => None
                 end
               /\ lookup "name" o = lookup "name" d
               /\ lookup "_id" o = lookup "_id" d)
            (Mongo.potions Demo.store) out.
Proof.
  assert (W : Forall (fun d => rated d = true) (Mongo.potions Demo.store))
    by (repeat constructor).
  split; [exact W|].
  exact (strengthFlavorRatio_per_potion Demo.config Demo.store W).
Defined.

(** ** Counting by group *)

Lemma filter_none :
  forall (A : Type) (f : A -> bool) (l : list A),
    (forall x, In x l -> f x = false) -> filter f l = [].
Proof.
  intros A f l. induction l as [|a l IH]; intro H; [reflexivity|].
  cbn [filter]. rewrite (H a (or_introl eq_refl)). apply IH.
  intros x I. apply H. right. exact I.
Qed.

Lemma prefix_empty : forall s, String.prefix "" s = true.
Proof. intros [|c s]; reflexivity. Qed.

Lemma prefix_dollar_head :
  forall g,
    String.prefix "$" g = match Mongo.split "." g with
                          | h :: _ => String.prefix "$" h
                          | [] => false
                          end.
Proof.
  intros [|c r]; [reflexivity|]. cbn [Mongo.split].
  destruct (Ascii.eqb c ".") eqn:E.
  - apply Ascii.eqb_eq in E. subst. reflexivity.
  - destruct (Mongo.split "." r) as [|h t]; cbn [String.prefix];
      destruct (ascii_dec "$" c); rewrite ?prefix_empty; reflexivity.
Qed.

Lemma substring_full : forall s, String.substring 0 (String.length s) s = s.
Proof. induction s as [|c s IH]; [reflexivity|]. cbn. rewrite IH. reflexivity. Qed.

Lemma isFieldPath_no_dollar :
  forall g, isFieldPath g = true -> String.prefix "$" g = false.
Proof.
  intros g H. rewrite prefix_dollar_head. unfold isFieldPath, Mongo.validPath in H.
  destruct (Mongo.split "." g) as [|h t]; [reflexivity|].
  cbn [forallb] in H. apply andb_prop in H. destruct H as [H _].
  unfold Mongo.validComponent in H.
  destruct (String.prefix "$" h); [|reflexivity].
  rewrite andb_false_r in H. discriminate.
Qed.

Lemma isFieldPath_truthy :
  forall g, isFieldPath g = true -> JS.isTruthy (Some g) = true.
Proof. intros [|c r] H; [discriminate | reflexivity]. Qed.

Lemma parseString_fieldPath :
  forall g,
    isFieldPath g = true ->
    Mongo.parseString ("$" ++ g) = Mongo.Ok (Mongo.PPath (Mongo.split "." g)).
Proof.
  intros g H. unfold Mongo.parseString.
  change ("$" ++ g) with (String "$" g).
  assert (P2 : String.prefix "$$" (String "$" g) = false).
  { cbn [String.prefix]. destruct (ascii_dec "$" "$") as [_|N]; [|reflexivity].
    apply isFieldPath_no_dollar. exact H. }
  assert (P1 : String.prefix "$" (String "$" g) = true).
  { cbn [String.prefix]. destruct (ascii_dec "$" "$") as [_|N]; [|congruence].
    apply prefix_empty. }
  rewrite P2, P1. unfold Mongo.drop.
  cbn [String.length Nat.sub String.substring]. rewrite Nat.sub_0_r, substring_full.
  unfold Mongo.parseFieldPath. unfold isFieldPath in H. rewrite H. reflexivity.
Qed.

Section Grouping.

Variable key : Doc -> Value.

Lemma others_differ :
  forall k v (ks : list Value),
    distinctKeys (k :: ks) = true -> value_eqb k v = true ->
    forall r, In r ks -> value_eqb r v = false.
Proof.
  intros k v ks D E r I. cbn [distinctKeys] in D. apply andb_prop in D.
  destruct D as [D _]. apply negb_true_iff in D.
  destruct (value_eqb r v) eqn:R; [|reflexivity].
  assert (value_eqb k r = true) as K
    by (apply (value_eqb_trans k v r E); rewrite value_eqb_sym; exact R).
  assert (existsb (value_eqb k) ks = true) as X
    by (apply existsb_exists; exists r; split; assumption).
  congruence.
Qed.

Lemma insertBucket_fresh :
  forall k d buckets,
    existsb (keyed k) buckets = false ->
    Mongo.insertBucket k d buckets = (buckets ++ [ (k, [ d ]) ])%list.
Proof.
  intros k d buckets. induction buckets as [|[k' ms] rest IH]; [reflexivity|].
  cbn [existsb Mongo.insertBucket]. unfold keyed at 1. cbn [fst].
  destruct (value_eqb k' k); [discriminate|]. cbn [orb]. intro H.
  rewrite (IH H). reflexivity.
Qed.

Lemma insertBucket_known :
  forall k d buckets,
    distinctKeys (map fst buckets) = true ->
    existsb (keyed k) buckets = true ->
    Mongo.insertBucket k d buckets = map (joined k d) buckets.
Proof.
  intros k d buckets. induction buckets as [|[k' ms] rest IH]; [discriminate|].
  intros D X. cbn [Mongo.insertBucket map]. unfold joined at 1, keyed at 1.
  cbn [fst snd]. destruct (value_eqb k' k) eqn:E.
  - f_equal. symmetry. rewrite <- (map_id rest) at 2. apply map_ext_in.
    intros b I. unfold joined, keyed.
    rewrite (others_differ k' k (map fst rest) D E (fst b)); [reflexivity|].
    apply in_map. exact I.
  - f_equal. apply IH.
    + cbn [map distinctKeys] in D. apply andb_prop in D. apply D.
    + cbn [existsb] in X. unfold keyed at 1 in X. cbn [fst] in X.
      rewrite E in X. exact X.
Qed.

Lemma distinctKeys_snoc :
  forall ks k,
    distinctKeys ks = true -> existsb (fun r => value_eqb r k) ks = false ->
    distinctKeys (ks ++ [ k ]) = true.
Proof.
  induction ks as [|r ks IH]; intros k D X; [reflexivity|].
  cbn [distinctKeys app] in *. cbn [existsb] in X.
  apply andb_prop in D. destruct D as [D1 D2].
  apply orb_false_elim in X. destruct X as [X1 X2].
  rewrite existsb_app. cbn [existsb]. rewrite X1.
  apply negb_true_iff in D1. rewrite D1. cbn. apply IH; assumption.
Qed.

Lemma fst_joined : forall k d b, fst (joined k d b) = fst b.
Proof. intros k d b. unfold joined. destruct (keyed k b); reflexivity. Qed.

Lemma existsb_keyed_map :
  forall k k' d buckets,
    existsb (keyed k) (map (joined k' d) buckets) = existsb (keyed k) buckets.
Proof.
  intros k k' d buckets. induction buckets as [|b rest IH]; [reflexivity|].
  cbn [map existsb]. rewrite IH. unfold keyed at 1 3. rewrite fst_joined.
  reflexivity.
Qed.

Lemma existsb_keyed_fst :
  forall k buckets,
    existsb (fun r => value_eqb r k) (map fst buckets) = existsb (keyed k) buckets.
Proof.
  intros k buckets. induction buckets as [|b rest IH]; [reflexivity|].
  cbn [map existsb]. rewrite IH. reflexivity.
Qed.

Lemma grouped_step :
  forall seen buckets d,
    grouped key seen buckets ->
    grouped key (seen ++ [ d ]) (Mongo.insertBucket (key d) d buckets).
Proof.
  intros seen buckets d (D & M & C).
  destruct (existsb (keyed (key d)) buckets) eqn:X.
  - rewrite (insertBucket_known _ _ _ D X). repeat split.
    + rewrite map_map. rewrite (map_ext _ fst (fst_joined (key d) d)). exact D.
    + apply in_map_iff in H. destruct H as (b0 & <- & I).
      destruct (M b0 I) as [Mb _]. rewrite fst_joined, filter_app. cbn [filter].
      unfold joined, keyed. destruct (value_eqb (fst b0) (key d)); cbn [snd];
        rewrite Mb at 1; rewrite ?app_nil_r; reflexivity.
    + apply in_map_iff in H. destruct H as (b0 & <- & I).
      destruct (M b0 I) as [_ Nb]. unfold joined. destruct (keyed (key d) b0);
        [cbn [snd]; intro E; apply app_eq_nil in E; destruct E; discriminate | exact Nb].
    + intros d' I. rewrite existsb_keyed_map. apply in_app_or in I.
      destruct I as [I|[<-|[]]]; [apply C; exact I | exact X].
  - rewrite (insertBucket_fresh _ _ _ X).
    assert (F : filter (fun d' => value_eqb (key d) (key d')) seen = []).
    { apply filter_none. intros d' I.
      destruct (value_eqb (key d) (key d')) eqn:E; [|reflexivity].
      pose proof (C d' I) as Xd. apply existsb_exists in Xd.
      destruct Xd as (b & Ib & Kb). unfold keyed in Kb.
      assert (existsb (keyed (key d)) buckets = true) as Y.
      { apply existsb_exists. exists b. split; [exact Ib|]. unfold keyed.
        apply (value_eqb_trans _ _ _ Kb). rewrite value_eqb_sym. exact E. }
      congruence. }
    repeat split.
    + rewrite map_app. apply distinctKeys_snoc; [exact D|].
      rewrite existsb_keyed_fst. exact X.
    + apply in_app_or in H. destruct H as [I|[<-|[]]].
      * destruct (M b I) as [Mb _]. rewrite filter_app. cbn [filter].
        assert (value_eqb (fst b) (key d) = false) as N.
        { destruct (value_eqb (fst b) (key d)) eqn:E; [|reflexivity].
          assert (existsb (keyed (key d)) buckets = true) as Y
            by (apply existsb_exists; exists b; split; assumption).
          congruence. }
        rewrite N, app_nil_r. exact Mb.
      * cbn [fst snd]. rewrite filter_app, F. cbn [filter app].
        rewrite value_eqb_refl. reflexivity.
    + apply in_app_or in H. destruct H as [I|[<-|[]]].
      * apply (M b I).
      * discriminate.
    + intros d' I. rewrite existsb_app. apply in_app_or in I.
      destruct I as [I|[<-|[]]].
      * rewrite (C d' I). reflexivity.
      * cbn [existsb]. unfold keyed at 2. cbn [fst]. rewrite value_eqb_refl.
        apply orb_true_r.
Qed.

Lemma grouped_insertAll :
  forall docs seen buckets,
    grouped key seen buckets -> grouped key (seen ++ docs) (insertAll key docs buckets).
Proof.
  induction docs as [|d docs IH]; intros seen buckets G.
  - rewrite app_nil_r. exact G.
  - cbn [insertAll fold_left].
    replace (seen ++ d :: docs)%list with ((seen ++ [ d ]) ++ docs)%list
      by (rewrite <- app_assoc; reflexivity).
    apply IH. apply grouped_step. exact G.
Qed.

Lemma grouped_nil : grouped key [] [].
Proof.
  unfold grouped. split; [reflexivity|]. split; [intros b [] | intros d []].
Qed.

Lemma one_bucket_per_key :
  forall v buckets,
    distinctKeys (map fst buckets) = true ->
    existsb (keyed v) buckets = true ->
    List.length (filter (keyed v) buckets) = 1%nat.
Proof.
  intros v buckets. induction buckets as [|b rest IH]; [discriminate|].
  intros D X. cbn [filter]. destruct (keyed v b) eqn:E.
  - cbn [List.length]. f_equal.
    replace (filter (keyed v) rest) with (@nil (Value * list Doc)); [reflexivity|].
    symmetry. apply filter_none. intros r I. unfold keyed.
    apply (others_differ (fst b) v (map fst rest) D E). apply in_map. exact I.
  - apply IH.
    + cbn [map distinctKeys] in D. apply andb_prop in D. apply D.
    + cbn [existsb] in X. rewrite E in X. exact X.
Qed.

End Grouping.

Lemma groupDocs_path :
  forall path docs buckets,
    Mongo.groupDocs (Mongo.PPath path) docs buckets
    = Mongo.Ok (insertAll (fun d => Mongo.keyOf (Mongo.evaluatePath path d)) docs buckets).
Proof.
  intros path docs. induction docs as [|d docs IH]; intro buckets; [reflexivity|].
  cbn [Mongo.groupDocs Mongo.eval Mongo.bind]. rewrite IH. reflexivity.
Qed.

Lemma mapM_eval_literal :
  forall v (members : list Doc),
    Mongo.mapM (Mongo.eval (Mongo.PLit v)) members
    = Mongo.Ok (map (fun _ => Some v) members).
Proof.
  intros v members. induction members as [|d members IH]; [reflexivity|].
  cbn [Mongo.mapM map]. rewrite IH. reflexivity.
Qed.

Lemma sum_of_ones :
  forall cfg (members : list Doc),
    Mongo.sumNumbers cfg
      (Mongo.numbersOf (map (fun _ => Some (VNum (Int 1))) members))
    = Int (Z.of_nat (List.length members)).
Proof.
  intros cfg members. unfold Mongo.sumNumbers.
  assert (E : Mongo.numbersOf (map (fun _ : Doc => Some (VNum (Int 1))) members)
              = repeat (Int 1) (List.length members)).
  { induction members as [|d members IH]; [reflexivity|].
    cbn [map Mongo.numbersOf flat_map app List.length repeat].
    unfold Mongo.numbersOf in IH. rewrite IH. reflexivity. }
  rewrite E. clear E. induction (List.length members) as [|n IH]; [reflexivity|].
  cbn [repeat forallb Mongo.isInt andb map Mongo.intOf fold_right].
  destruct (forallb Mongo.isInt (repeat (Int 1) n)); [|discriminate].
  injection IH as IH. rewrite IH. f_equal. lia.
Qed.

Lemma count_outputs :
  forall cfg (buckets : Mongo.Buckets),
    Mongo.mapM
      (Mongo.groupOutput cfg [ ("count", (Mongo.AccSum, Mongo.PLit (VNum (Int 1)))) ])
      buckets
    = Mongo.Ok (map (fun b => [ ("_id", fst (sized b));
                                ("count", VNum (Int (Z.of_nat (snd (sized b))))) ])
                    buckets).
Proof.
  intros cfg buckets. induction buckets as [|b rest IH]; [reflexivity|].
  cbn [Mongo.mapM map]. rewrite IH. unfold Mongo.groupOutput, Mongo.groupField.
  cbn [Mongo.mapM fst snd]. rewrite mapM_eval_literal.
  cbn [Mongo.bind Mongo.accumulate]. rewrite sum_of_ones. reflexivity.
Qed.

Lemma search_count_request :
  forall groupBy field,
    JS.isTruthy (Some groupBy) = true ->
    analytics.search (Some groupBy) (Some "count") field
    = catching 500
        (PotionAggregate
           [ Group (EStr ("$" ++ groupBy))
               [ ("count", ("$sum", ELit (VNum (Int 1)))) ] ])
        (fun result => Respond (json result)).
Proof.
  intros groupBy field T. unfold analytics.search.
  change (JS.propTruthy (JS.get analytics.allowedMetrics (Some "count"))) with true.
  change (JS.strictEq (Some "count") "count") with true.
  rewrite T. cbn [negb orb]. rewrite andb_false_r. reflexivity.
Qed.

Lemma filter_map_fst :
  forall (f : Value -> bool) (buckets : Mongo.Buckets),
    filter (fun e => f (fst e)) (map sized buckets)
    = map sized (filter (fun b => f (fst b)) buckets).
Proof.
  intros f buckets. induction buckets as [|b rest IH]; [reflexivity|].
  cbn [map filter fst sized]. destruct (f (fst b)); cbn [map]; rewrite IH; reflexivity.
Qed.

Lemma search_count_ignores_field :
  forall groupBy field : option string,
    analytics.search groupBy (Some "count") field
    = analytics.search groupBy (Some "count") None.
Proof.
  intros groupBy field. unfold analytics.search.
  change (JS.strictEq (Some "count") "count") with true.
  cbn [negb]. rewrite !andb_false_r. reflexivity.
Qed.

Lemma hasEmptyName_invalid :
  forall g, hasEmptyName g = true -> Mongo.validPath (Mongo.split "." g) = false.
Proof.
  intro g. unfold hasEmptyName, Mongo.validPath.
  induction (Mongo.split "." g) as [|c l IH]; [discriminate|].
  cbn [existsb forallb]. destruct (String.eqb "" c) eqn:E.
  - apply String.eqb_eq in E. subst c. intros _. reflexivity.
  - cbn [orb]. intro H. rewrite (IH H). apply andb_false_r.
Qed.

Lemma parseString_emptyName :
  forall g,
    String.prefix "$" g = false ->
    hasEmptyName g = true ->
    exists e, Mongo.parseString ("$" ++ g) = Mongo.Fail e.
Proof.
  intros g P H. unfold Mongo.parseString.
  change ("$" ++ g) with (String "$" g).
  assert (P2 : String.prefix "$$" (String "$" g) = false).
  { cbn [String.prefix]. destruct (ascii_dec "$" "$") as [_|N]; [exact P|reflexivity]. }
  assert (P1 : String.prefix "$" (String "$" g) = true).
  { cbn [String.prefix]. destruct (ascii_dec "$" "$") as [_|N]; [|congruence].
    apply prefix_empty. }
  rewrite P2, P1. unfold Mongo.drop.
  cbn [String.length Nat.sub String.substring]. rewrite Nat.sub_0_r, substring_full.
  unfold Mongo.parseFieldPath. rewrite (hasEmptyName_invalid _ H).
  cbn [Mongo.bind]. eexists. reflexivity.
Qed.

(** C4: a count search does not depend on [field]; for a [groupBy] that
    names a field, on every catalog it answers 200 with entries of distinct
    keys such that the value of the [groupBy] field of each potion equals
    the key of exactly one entry, and each entry counts the potions whose
    value equals its key, at least one; and every [groupBy] that is not
    empty, does not begin with a dollar sign and has an empty name on its
    path (a leading, trailing or doubled dot) is answered 500. *)
Theorem search_count_groups :
  forall (cfg : Mongo.Config) (s : Mongo.Store) (groupBy : string)
         (field : option string),
    (forall anyGroupBy : option string,
       analytics.search anyGroupBy (Some "count") field
       = analytics.search anyGroupBy (Some "count") None)
    /\ (isFieldPath groupBy = true ->
        exists entries : list (Value * nat),
          outcome (Mongo.exec cfg)
            (analytics.search (Some groupBy) (Some "count") field) s
          = Responded (json (VArr (map countEntry entries)))
          /\ distinctKeys (map fst entries) = true
          /\ (forall d, In d (Mongo.potions s) ->
                List.length
                  (filter (fun e => value_eqb (fst e) (groupKey groupBy d)) entries)
                = 1%nat)
          /\ (forall e, In e entries ->
                snd e = countOf groupBy (fst e) (Mongo.potions s)
                /\ (0 < snd e)%nat))
    /\ (JS.isTruthy (Some groupBy) = true ->
        String.prefix "$" groupBy = false ->
        hasEmptyName groupBy = true ->
        statusOf (outcome (Mongo.exec cfg)
                    (analytics.search (Some groupBy) (Some "count") field) s)
        = Some 500).
Proof.
  intros cfg s groupBy field.
  split; [intro anyGroupBy; apply search_count_ignores_field|]. split.
  - intro F. pose proof (isFieldPath_truthy _ F) as T.
    set (buckets := insertAll (groupKey groupBy) (Mongo.potions s) []).
    assert (G : grouped (groupKey groupBy) (Mongo.potions s) buckets).
    { apply (grouped_insertAll (groupKey groupBy) (Mongo.potions s) [] []).
      apply grouped_nil. }
    destruct G as (D & M & C).
    exists (map sized buckets). split; [|split; [|split]].
    + rewrite search_count_request by exact T. unfold catching.
      rewrite outcome_await. cbn [Mongo.exec fst snd]. unfold Mongo.aggregate.
      cbn [Mongo.mapM Mongo.parseStage Mongo.parseExpr Mongo.bind].
      rewrite (parseString_fieldPath _ F).
      cbn [Mongo.bind Mongo.mapM Mongo.parseAccOp Mongo.parseExpr fst snd
           String.eqb Ascii.eqb Bool.eqb Mongo.runStages Mongo.runStage].
      rewrite groupDocs_path. cbn [Mongo.bind].
      fold (groupKey groupBy). fold buckets.
      rewrite count_outputs. cbn [Mongo.bind Mongo.settle].
      rewrite !map_map. reflexivity.
    + rewrite map_map. exact D.
    + intros d I.
      rewrite (filter_map_fst (fun k => value_eqb k (groupKey groupBy d))).
      rewrite length_map. apply (one_bucket_per_key (groupKey groupBy d) buckets D).
      apply C. exact I.
    + intros e I. apply in_map_iff in I. destruct I as (b & <- & I).
      destruct (M b I) as [Mb Nb]. unfold sized, countOf. cbn [fst snd]. split.
      * rewrite Mb at 1. reflexivity.
      * destruct (snd b); [congruence | cbn; lia].
  - intros T P H. destruct (parseString_emptyName _ P H) as [e E].
    rewrite search_count_request by exact T. unfold catching.
    rewrite outcome_await. cbn [Mongo.exec fst snd]. unfold Mongo.aggregate.
    cbn [Mongo.mapM Mongo.parseStage Mongo.parseExpr Mongo.bind].
    rewrite E. reflexivity.
Qed.

Lemma search_count_groups_witness :
  isFieldPath "vendor_id" = true
  /\ outcome Demo.exec
       (analytics.search (Some "vendor_id") (Some "count") (Some "price")) Demo.store
     = Responded (json (VArr (map countEntry [ (VStr "v1", 2%nat); (VStr "v2", 1%nat) ])))
  /\ analytics.search (Some "vendor_id") (Some "count") (Some "price")
     = analytics.search (Some "vendor_id") (Some "count") None
  /\ hasEmptyName "a..b" = true
  /\ statusOf (outcome Demo.exec
                 (analytics.search (Some "a..b") (Some "count") (Some "price"))
                 Demo.store)
     = Some 500.
Proof.
  split; [reflexivity|]. split; [reflexivity|]. split; [|split; [reflexivity|]].
  - exact (proj1 (search_count_groups Demo.config Demo.store "vendor_id"
                    (Some "price")) (Some "vendor_id")).
  - exact (proj2 (proj2 (search_count_groups Demo.config Demo.store "a..b"
                           (Some "price"))) eq_refl eq_refl eq_refl).
Defined.

(** C4, as stated, fails: the [groupBy] that ends in a dot is present but
    is refused by the store, and the count search answers 500. *)
Lemma search_count_bad_path_counterexample :
  JS.isTruthy (Some "vendor_id.") = true
  /\ isFieldPath "vendor_id." = false
  /\ statusOf (outcome Demo.exec
                 (analytics.search (Some "vendor_id.") (Some "count") None) Demo.store)
     = Some 500.
Proof. repeat split; reflexivity. Qed.

(** * Further properties of the routers *)

(** ** Status codes *)

Lemma saved_rejected :
  forall err,
    auth.saved (Rejected err)
    = Respond (if match err_code err with
                  | Some z => Z.eqb z 11000
                  | None => false
                  end
               then status_json 500 (error_body "Erreur système")
               else status_json 400 (error_body (err_message err))).
Proof.
  intro err. unfold auth.saved. destruct (err_code err) as [z|]; [|reflexivity].
  destruct (Z.eqb_spec z 11000) as [->|N]; [reflexivity|].
  destruct z as [|q|q]; try reflexivity.
  repeat (destruct q as [q|q|]; try reflexivity). congruence.
Qed.

Ltac pass_guard p c :=
  unfold authMiddleware;
  destruct (JS.assoc (COOKIE_NAME p) c) as [?token|];
    [destruct (jwt_verify p _ (JWT_SECRET p)) as [?identity|]|].

Ltac settle exec s :=
  unfold catching; rewrite ?outcome_await, ?calls_await;
  try (destruct (exec _ s) as [[?v|?e] ?s']; cbn [fst snd]);
  try match goal with |- context [truthy ?v] => destruct (truthy v) end;
  try reflexivity.

(** X1: whatever the store does, each public route of the potions router
    answers, and only with the status codes of its own: 200 or 500 for the
    three listings, and 200, 404 or 500 for [getById]. *)
Theorem potions_status_codes :
  forall (State : Type) (exec : StoreOp -> State -> Settled * State)
         (p : Platform) (s : State) (min max : option string)
         (id vendor_id : string),
    answers [ 200; 500 ] (outcome exec listAll s) = true
    /\ answers [ 200; 500 ] (outcome exec (listByVendor vendor_id) s) = true
    /\ answers [ 200; 500 ] (outcome exec (potions.priceRange p min max) s) = true
    /\ answers [ 200; 404; 500 ] (outcome exec (potions.getById id) s) = true.
Proof.
  intros State exec p s min max id vendor_id.
  repeat split.
  - unfold listAll. settle exec s.
  - unfold listByVendor. settle exec s.
  - unfold potions.priceRange. settle exec s.
  - unfold potions.getById. settle exec s.
Qed.

(** X8: whatever the store does and whatever cookies come with the
    request, each guarded route of the potions router answers: [create] with
    201, 400 or 401 and never with 500, [update] and [delete] with 200, 401,
    404 or 500; and each makes at most one call on the store. *)
Theorem guarded_routes_status_and_calls :
  forall (State : Type) (exec : StoreOp -> State -> Settled * State)
         (p : Platform) (reqCookies : list (string * string)) (s : State)
         (id : string) (payload : Value),
    (answers [ 201; 400; 401 ]
       (outcome exec (potions.create p reqCookies payload) s) = true
     /\ answers [ 200; 401; 404; 500 ]
          (outcome exec (potions.update p reqCookies id payload) s) = true
     /\ answers [ 200; 401; 404; 500 ]
          (outcome exec (potions.delete p reqCookies id) s) = true)
    /\ (List.length (calls exec (potions.create p reqCookies payload) s) <= 1)%nat
    /\ (List.length (calls exec (potions.update p reqCookies id payload) s) <= 1)%nat
    /\ (List.length (calls exec (potions.delete p reqCookies id) s) <= 1)%nat.
Proof.
  intros State exec p reqCookies s id payload.
  repeat split.
  - unfold potions.create. pass_guard p reqCookies; settle exec s.
  - unfold potions.update. pass_guard p reqCookies; settle exec s.
  - unfold potions.delete. pass_guard p reqCookies; settle exec s.
  - unfold potions.create. pass_guard p reqCookies; settle exec s; cbn; lia.
  - unfold potions.update. pass_guard p reqCookies; settle exec s; cbn; lia.
  - unfold potions.delete. pass_guard p reqCookies; settle exec s; cbn; lia.
Qed.

(** X2: whatever the store does, each route of the analytics router
    answers: [search] with 200, 400 or 500, the two fixed aggregations with
    200 or 500. *)
Theorem analytics_status_codes :
  forall (State : Type) (exec : StoreOp -> State -> Settled * State) (s : State)
         (groupBy metric field : option string),
    answers [ 200; 400; 500 ]
      (outcome exec (analytics.search groupBy metric field) s) = true
    /\ answers [ 200; 500 ] (outcome exec analytics.strengthFlavorRatio s) = true
    /\ answers [ 200; 500 ] (outcome exec averageScoreByVendor s) = true.
Proof.
  intros State exec s groupBy metric field. repeat split.
  - unfold analytics.search.
    destruct (negb (JS.propTruthy (JS.get analytics.allowedMetrics metric))
              || negb (JS.isTruthy groupBy)
              || negb (JS.isTruthy field) && negb (JS.strictEq metric "count"));
      [reflexivity|].
    destruct (JS.strictEq metric "count"); settle exec s.
  - unfold analytics.strengthFlavorRatio. settle exec s.
  - unfold averageScoreByVendor. settle exec s.
Qed.

(** X3: whatever the store does, [register] answers with 201, 400 or 500
    and [logout] with 200; [login] answers with 200 or 401 when it answers. *)
Theorem auth_status_codes :
  forall (State : Type) (exec : StoreOp -> State -> Settled * State)
         (p : Platform) (s : State) (name password : option string)
         (reqBody : Value),
    answers [ 201; 400; 500 ] (outcome exec (auth.register name password) s) = true
    /\ answers [ 200 ] (outcome exec (logout p) s) = true
    /\ answersOrCrashes [ 200; 401 ] (outcome exec (auth.login p reqBody) s) = true.
Proof.
  intros State exec p s name password reqBody. repeat split.
  - unfold auth.register.
    destruct (auth.validate name password) as [[n pw] [|e errors]]; [|reflexivity].
    rewrite outcome_await. destruct (exec _ s) as [[v|err] s']; cbn [fst snd];
      [reflexivity|].
    rewrite saved_rejected.
    destruct (match err_code err with Some z => Z.eqb z 11000 | None => false end);
      reflexivity.
  - unfold auth.login. rewrite outcome_await.
    destruct (exec _ s) as [[user|err] s']; cbn [fst snd]; [|reflexivity].
    destruct (truthy user); cbn [negb]; [|reflexivity].
    rewrite outcome_await.
    destruct (exec _ s') as [[matched|err] s'']; cbn [fst snd]; [|reflexivity].
    destruct (truthy matched); reflexivity.
Qed.

(** ** Calls on the store *)

(** X4: whatever the store does, no public route calls it more than once,
    except [login], which calls it at most twice; the listings, [getById],
    the analytics routes and [login] only read, [register] makes at most one
    call, and [logout] makes none. *)
Theorem routes_call_discipline :
  forall (State : Type) (exec : StoreOp -> State -> Settled * State)
         (p : Platform) (s : State)
         (groupBy metric field min max name password : option string)
         (id vendor_id : string) (reqBody : Value),
    readsAtMost 1 (calls exec listAll s) = true
    /\ readsAtMost 1 (calls exec (listByVendor vendor_id) s) = true
    /\ readsAtMost 1 (calls exec (potions.priceRange p min max) s) = true
    /\ readsAtMost 1 (calls exec (potions.getById id) s) = true
    /\ readsAtMost 1 (calls exec (analytics.search groupBy metric field) s) = true
    /\ readsAtMost 1 (calls exec analytics.strengthFlavorRatio s) = true
    /\ readsAtMost 1 (calls exec averageScoreByVendor s) = true
    /\ readsAtMost 2 (calls exec (auth.login p reqBody) s) = true
    /\ calls exec (logout p) s = []
    /\ (List.length (calls exec (auth.register name password) s) <= 1)%nat.
Proof.
  intros State exec p s groupBy metric field min max name password
         id vendor_id reqBody.
  repeat split.
  - unfold listAll. settle exec s.
  - unfold listByVendor. settle exec s.
  - unfold potions.priceRange. settle exec s.
  - unfold potions.getById. settle exec s.
  - unfold analytics.search.
    destruct (negb (JS.propTruthy (JS.get analytics.allowedMetrics metric))
              || negb (JS.isTruthy groupBy)
              || negb (JS.isTruthy field) && negb (JS.strictEq metric "count"));
      [reflexivity|].
    destruct (JS.strictEq metric "count"); settle exec s.
  - unfold analytics.strengthFlavorRatio. settle exec s.
  - unfold averageScoreByVendor. settle exec s.
  - unfold auth.login. rewrite calls_await.
    destruct (exec _ s) as [[user|err] s']; cbn [fst snd]; [|reflexivity].
    destruct (truthy user); cbn [negb]; [|reflexivity].
    rewrite calls_await.
    destruct (exec _ s') as [[matched|err] s'']; cbn [fst snd]; [|reflexivity].
    destruct (truthy matched); reflexivity.
  - unfold auth.register.
    destruct (auth.validate name password) as [[n pw] [|e errors]]; [|cbn; lia].
    rewrite calls_await. destruct (exec _ s) as [[v|err] s']; cbn [fst snd].
    + cbn. lia.
    + rewrite saved_rejected. cbn. lia.
Qed.

(** ** Sessions *)

(** X6: [login] does not answer exactly when a call on the store is
    rejected: the lookup of the user, or the comparison of the password of a
    user that was found. *)
Theorem login_unanswered_iff_rejected :
  forall (State : Type) (exec : StoreOp -> State -> Settled * State)
         (p : Platform) (reqBody : Value) (s : State) (e : Error),
    let q := [ ("name", Equals (bodyString p reqBody "name")) ] in
    outcome exec (auth.login p reqBody) s = Crashed e
    <-> (fst (exec (UserFindOne q) s) = Rejected e
         \/ exists user,
              fst (exec (UserFindOne q) s) = Fulfilled user
              /\ truthy user = true
              /\ fst (exec (UserComparePassword user (bodyString p reqBody "password"))
                        (snd (exec (UserFindOne q) s)))
                 = Rejected e).
Proof.
  intros State exec p reqBody s e q. unfold auth.login. fold q.
  rewrite outcome_await.
  destruct (exec (UserFindOne q) s) as [[user|err] s']; cbn [fst snd].
  - destruct (truthy user) eqn:T; cbn [negb].
    + rewrite outcome_await.
      destruct (exec (UserComparePassword user (bodyString p reqBody "password")) s')
        as [[matched|err] s''] eqn:C; cbn [fst snd]; unfold outcome; cbn [run fst].
      * split.
        -- destruct (truthy matched); discriminate.
        -- intros [H|(u & Hu & _ & Hc)]; [discriminate|].
           injection Hu as <-. rewrite C in Hc. discriminate.
      * split.
        -- intro H. right. exists user. rewrite C. cbn [fst].
           repeat split; congruence.
        -- intros [H|(u & Hu & _ & Hc)]; [discriminate|].
           injection Hu as <-. rewrite C in Hc. cbn [fst] in Hc. congruence.
    + unfold outcome; cbn [run fst]. split; [discriminate|].
      intros [H|(u & Hu & Tu & _)]; [discriminate|].
      injection Hu as <-. congruence.
  - unfold outcome; cbn [run fst]. split.
    + intro H. left. congruence.
    + intros [H|(u & Hu & _)]; [congruence | discriminate].
Qed.

(** X7: whatever the store does, a response of [login] is either the 401
    without any cookie, given when the lookup found nobody or the comparison
    said no, or the 200 whose body is the fixed message and which sets one
    cookie: named as configured, HTTP-only, same-site strict, not secure,
    lasting 24 hours, holding the token signed, with the configured secret
    and a one-day expiry, for the identifier and name of the very user the
    lookup by the submitted name returned and whose password comparison
    said yes.  [logout] clears the cookie of that name. *)
Theorem login_sets_cookie_only_on_success :
  forall (State : Type) (exec : StoreOp -> State -> Settled * State)
         (p : Platform) (reqBody : Value) (s : State),
    let found :=
      exec (UserFindOne [ ("name", Equals (bodyString p reqBody "name")) ]) s in
    let compared user :=
      exec (UserComparePassword user (bodyString p reqBody "password")) (snd found) in
    (forall r,
       outcome exec (auth.login p reqBody) s = Responded r <->
       (exists user,
          fst found = Fulfilled user
          /\ ((truthy user = false
               \/ (truthy user = true
                   /\ exists matched,
                        fst (compared user) = Fulfilled matched
                        /\ truthy matched = false))
              /\ r = auth.invalidCredentials
              \/ truthy user = true
                 /\ (exists matched,
                       fst (compared user) = Fulfilled matched
                       /\ truthy matched = true)
                 /\ r = mkResponse 200 (message_body "Connecté avec succès")
                          [ SetCookie (COOKIE_NAME p)
                              (jwt_sign p
                                 (VDoc [ ("id", auth.fieldOrNull "_id" user);
                                         ("name", auth.fieldOrNull "name" user) ])
                                 (JWT_SECRET p) "1d")
                              true "strict" false 86400000 ])))
    /\ cookies auth.invalidCredentials = []
    /\ outcome exec (logout p) s
       = Responded (mkResponse 200 (message_body "Déconnecté")
                      [ ClearCookie (COOKIE_NAME p) ]).
Proof.
  intros State exec p reqBody s found compared.
  split; [|split; reflexivity].
  intro r. subst compared found. unfold auth.login. rewrite outcome_await.
  destruct (exec (UserFindOne [ ("name", Equals (bodyString p reqBody "name")) ]) s)
    as [[user|err] s'] eqn:F; cbn [fst snd].
  2:{ unfold outcome; cbn [run fst]. split; [discriminate|].
      intros (u & Hu & _). discriminate. }
  destruct (truthy user) eqn:T; cbn [negb].
  2:{ unfold outcome; cbn [run fst]. split.
      - intro H. injection H as <-. exists user. split; [reflexivity|].
        left. split; [left; exact T | reflexivity].
      - intros (u & Hu & [[_ ->] | (Tu & _)]); [reflexivity|].
        injection Hu as <-. congruence. }
  rewrite outcome_await.
  destruct (exec (UserComparePassword user (bodyString p reqBody "password")) s')
    as [[matched|err] s''] eqn:C; cbn [fst snd].
  2:{ unfold outcome; cbn [run fst]. split; [discriminate|].
      intros (u & Hu & [[[Tu | (_ & m & Hm & _)] _] | (_ & (m & Hm & _) & _)]);
        injection Hu as <-; [congruence | |]; rewrite C in Hm; discriminate. }
  destruct (truthy matched) eqn:M; cbn [negb]; unfold outcome; cbn [run fst]; split.
  - intro H. injection H as <-. exists user. split; [reflexivity|].
    right. split; [exact T|]. split; [|reflexivity].
    exists matched. rewrite C. split; [reflexivity | exact M].
  - intros (u & Hu & [[[Tu | (_ & m & Hm & Fm)] _] | (_ & _ & ->)]);
      injection Hu as <-; [congruence | | reflexivity].
    rewrite C in Hm. cbn [fst] in Hm. injection Hm as <-. congruence.
  - intro H. injection H as <-. exists user. split; [reflexivity|].
    left. split; [|reflexivity]. right. split; [exact T|].
    exists matched. rewrite C. split; [reflexivity | exact M].
  - intros (u & Hu & [[_ ->] | (_ & (m & Hm & Tm) & _)]); [reflexivity|].
    injection Hu as <-. rewrite C in Hm. cbn [fst] in Hm. injection Hm as <-.
    congruence.
Qed.

(** ** Registration *)

Lemma validate_sanitized :
  forall name password : option string,
    auth.validate name password
    = (sanitize name, sanitize password,
       (nameErrors (sanitize name) ++ passwordErrors (sanitize password))%list).
Proof.
  intros name password.
  unfold auth.validate, auth.nameChain, auth.passwordChain. cbn [auth.runChain].
  fold (sanitize name) (sanitize password).
  unfold nameErrors, passwordErrors, auth.notEmpty, auth.isLength.
  destruct (String.eqb (sanitize name) ""), (String.eqb (sanitize password) "");
    destruct ((3 <=? String.length (sanitize name))
              && (String.length (sanitize name) <=? 30))%nat;
    destruct (6 <=? String.length (sanitize password))%nat; reflexivity.
Qed.

Lemma no_errors_lengths :
  forall n pw,
    (nameErrors n ++ passwordErrors pw)%list = [] ->
    (3 <= String.length n <= 30)%nat /\ (6 <= String.length pw)%nat.
Proof.
  intros n pw H. apply app_eq_nil in H. destruct H as [Hn Hp].
  unfold nameErrors in Hn. unfold passwordErrors in Hp.
  apply app_eq_nil in Hn, Hp. destruct Hn as [_ Hn], Hp as [_ Hp].
  destruct ((3 <=? String.length n) && (String.length n <=? 30))%nat eqn:L;
    [|discriminate].
  destruct (6 <=? String.length pw)%nat eqn:P; [|discriminate].
  apply andb_prop in L. destruct L as [L1 L2].
  apply Nat.leb_le in L1, L2, P. lia.
Qed.

Lemma everyChar_app :
  forall f a b, everyChar f (a ++ b) = everyChar f a && everyChar f b.
Proof.
  intros f a b. induction a as [|c a IH]; [reflexivity|].
  cbn. rewrite IH. apply andb_assoc.
Qed.

Lemma escapeChar_markupFree : forall c, markupFree (JS.escapeChar c) = true.
Proof. intros [[] [] [] [] [] [] [] []]; reflexivity. Qed.

Lemma escape_markupFree : forall s, markupFree (JS.escape s) = true.
Proof.
  induction s as [|c s IH]; [reflexivity|].
  pose proof (escapeChar_markupFree c) as C.
  unfold markupFree in *. cbn [JS.escape]. rewrite everyChar_app, IH, C.
  reflexivity.
Qed.

(** X9: whatever the store does, the only call [register] ever makes is
    the save of the trimmed and escaped name and password, and it makes it
    only with a name of 3 to 30 characters and a password of at least 6,
    both free of quotes, angle brackets, slashes, backslashes and
    backquotes. *)
Theorem register_saves_only_sanitized :
  forall (State : Type) (exec : StoreOp -> State -> Settled * State) (s : State)
         (name password : option string),
    Forall
      (fun op =>
         op = UserSave (sanitize name) (sanitize password)
         /\ (3 <= String.length (sanitize name) <= 30)%nat
         /\ (6 <= String.length (sanitize password))%nat
         /\ markupFree (sanitize name) = true
         /\ markupFree (sanitize password) = true)
      (calls exec (auth.register name password) s).
Proof.
  intros State exec s name password. unfold auth.register.
  rewrite validate_sanitized.
  destruct (nameErrors (sanitize name) ++ passwordErrors (sanitize password))%list
    as [|e errors] eqn:E; [|constructor].
  rewrite calls_await. destruct (no_errors_lengths _ _ E) as [Ln Lp].
  constructor.
  - repeat split; try lia; apply escape_markupFree.
  - destruct (exec _ s) as [[v|err] s']; cbn [fst snd];
      [|rewrite saved_rejected]; constructor.
Qed.

Lemma final_await :
  forall (State : Type) (exec : StoreOp -> State -> Settled * State) op k s,
    final exec (Await op k) s = final exec (k (fst (exec op s))) (snd (exec op s)).
Proof.
  intros State exec op k s. unfold final. cbn [run].
  destruct (exec op s) as [r s']. cbn [fst snd].
  destruct (run exec (k r) s') as [[o cs] s'']. reflexivity.
Qed.

(** ** Listings *)

Lemma Num_leb_true :
  forall a b, Num.leb a b = true <-> belowValue (Num.exact a) (Num.exact b).
Proof.
  intros a b. unfold Num.leb, Num.compare, belowValue.
  destruct (Num.exact a) as [|sa|qa], (Num.exact b) as [|sb|qb]; cbn;
    try (split; [discriminate | contradiction]);
    try destruct sa; try destruct sb;
    try (split; intro H; (exact I || reflexivity || discriminate || contradiction)).
  rewrite Qle_alt. destruct (qa ?= qb)%Q; split; intro H;
    try reflexivity; try discriminate; try congruence.
Qed.

Lemma Num_leb_trans :
  forall a b c, Num.leb a b = true -> Num.leb b c = true -> Num.leb a c = true.
Proof.
  intros a b c. rewrite !Num_leb_true. unfold belowValue.
  destruct (Num.exact a) as [|sa|qa], (Num.exact b) as [|sb|qb],
           (Num.exact c) as [|sc|qc];
    try contradiction; try (destruct sa); try (destruct sb); try (destruct sc);
    try contradiction; try (intros; exact I).
  apply Qle_trans.
Qed.

(** X13: on a catalog whose prices are single values, when both bounds
    read as numbers and [min] is greater than [max], [priceRange] answers 200
    with the empty list. *)
Theorem priceRange_inverted_bounds :
  forall (p : Platform) (cfg : Mongo.Config) (s : Mongo.Store)
         (min max : option string) (lo hi : spec_float),
    Forall (fun d => scalarPrice d = true) (Mongo.potions s) ->
    bound p min = Some lo ->
    bound p max = Some hi ->
    Num.leb (Dbl lo) (Dbl hi) = false ->
    outcome (Mongo.exec cfg) (potions.priceRange p min max) s
    = Responded (json (VArr [])).
Proof.
  intros p cfg s min max lo hi W Bmin Bmax I.
  unfold potions.priceRange, catching. rewrite outcome_await.
  cbn [Mongo.exec fst snd]. rewrite (find_priceQuery p min max _ W), Bmin, Bmax.
  rewrite filter_none; [reflexivity|].
  intros d _. unfold priceWithin.
  destruct (lookup "price" d) as [[| |x| | |]|]; try reflexivity.
  destruct (Num.leb (Dbl lo) x) eqn:L1; [|reflexivity].
  destruct (Num.leb x (Dbl hi)) eqn:L2; [|reflexivity].
  rewrite (Num_leb_trans _ _ _ L1 L2) in I. discriminate.
Qed.

Lemma priceRange_inverted_bounds_witness :
  Forall (fun d => scalarPrice d = true) (Mongo.potions Demo.store)
  /\ outcome Demo.exec (potions.priceRange Demo.platform (Some "30") (Some "20"))
       Demo.store
     = Responded (json (VArr [])).
Proof.
  assert (W : Forall (fun d => scalarPrice d = true) (Mongo.potions Demo.store))
    by (repeat constructor).
  split; [exact W|].
  exact (priceRange_inverted_bounds Demo.platform Demo.config Demo.store
           (Some "30") (Some "20") _ _ W eq_refl eq_refl eq_refl).
Defined.

(** ** Aggregations by group *)

Lemma mapM_eval_path :
  forall path (members : list Doc),
    Mongo.mapM (Mongo.eval (Mongo.PPath path)) members
    = Mongo.Ok (map (Mongo.evaluatePath path) members).
Proof.
  intros path members. induction members as [|d members IH]; [reflexivity|].
  cbn [Mongo.mapM map]. rewrite IH. reflexivity.
Qed.

Lemma group_outputs :
  forall cfg valueName op field (buckets : Mongo.Buckets),
    Mongo.mapM
      (Mongo.groupOutput cfg
         [ (valueName, (op, Mongo.PPath (Mongo.split "." field))) ])
      buckets
    = Mongo.Ok (map (fun b => [ ("_id", fst (accumulated cfg op field b));
                                (valueName, snd (accumulated cfg op field b)) ])
                    buckets).
Proof.
  intros cfg valueName op field buckets.
  induction buckets as [|b rest IH]; [reflexivity|].
  cbn [Mongo.mapM map]. rewrite IH. unfold Mongo.groupOutput, Mongo.groupField.
  cbn [Mongo.mapM fst snd]. rewrite mapM_eval_path. reflexivity.
Qed.

Lemma aggregate_group :
  forall cfg groupBy field valueName opName op docs,
    isFieldPath groupBy = true ->
    isFieldPath field = true ->
    Mongo.parseAccOp opName = Mongo.Ok op ->
    Mongo.settle
      (Mongo.aggregate cfg
         [ Group (EStr ("$" ++ groupBy))
             [ (valueName, (opName, EStr ("$" ++ field))) ] ] docs)
    = Fulfilled
        (VArr (map (fun b => row valueName (accumulated cfg op field b))
                   (insertAll (groupKey groupBy) docs []))).
Proof.
  intros cfg groupBy field valueName opName op docs G F P.
  unfold Mongo.aggregate.
  cbn [Mongo.mapM Mongo.parseStage Mongo.parseExpr Mongo.bind fst snd].
  rewrite (parseString_fieldPath _ G), P, (parseString_fieldPath _ F).
  cbn [Mongo.bind Mongo.runStages Mongo.runStage].
  rewrite groupDocs_path. cbn [Mongo.bind]. fold (groupKey groupBy).
  rewrite group_outputs. cbn [Mongo.bind Mongo.settle].
  rewrite map_map. reflexivity.
Qed.

Lemma grouped_all :
  forall key docs, grouped key docs (insertAll key docs []).
Proof.
  intros key docs. apply (grouped_insertAll key docs [] []). apply grouped_nil.
Qed.

(** X14: for the metrics avg and sum, with a [groupBy] and a [field] that
    name fields, [search] answers 200 with one row per group of the catalog:
    the groups have distinct keys, each holds exactly the potions whose
    [groupBy] value equals its key, every potion is in one, and the row of a
    group carries under [result] the average, or the sum, of the [field]
    values of its potions. *)
Theorem search_metric_groups :
  forall (cfg : Mongo.Config) (s : Mongo.Store) (groupBy metric field : string),
    metric = "avg" \/ metric = "sum" ->
    isFieldPath groupBy = true ->
    isFieldPath field = true ->
    exists buckets : Mongo.Buckets,
      grouped (groupKey groupBy) (Mongo.potions s) buckets
      /\ outcome (Mongo.exec cfg)
           (analytics.search (Some groupBy) (Some metric) (Some field)) s
         = Responded
             (json (VArr (map (fun b =>
                                 row "result"
                                   (accumulated cfg (metricOp metric) field b))
                              buckets))).
Proof.
  intros cfg s groupBy metric field M G F.
  exists (insertAll (groupKey groupBy) (Mongo.potions s) []).
  split; [apply grouped_all|].
  pose proof (isFieldPath_truthy _ G) as Tg.
  pose proof (isFieldPath_truthy _ F) as Tf.
  unfold analytics.search. rewrite Tg, Tf.
  destruct M as [-> | ->];
    cbn [JS.get JS.toString JS.assoc analytics.allowedMetrics String.eqb Ascii.eqb
         Bool.eqb JS.propTruthy JS.strictEq negb orb andb JS.propToString];
    unfold catching; rewrite outcome_await; cbn [Mongo.exec fst snd].
  - rewrite (aggregate_group cfg groupBy field "result" "$avg" Mongo.AccAvg _ G F
               eq_refl).
    reflexivity.
  - rewrite (aggregate_group cfg groupBy field "result" "$sum" Mongo.AccSum _ G F
               eq_refl).
    reflexivity.
Qed.

Lemma search_metric_groups_witness :
  isFieldPath "vendor_id" = true
  /\ isFieldPath "price" = true
  /\ exists buckets : Mongo.Buckets,
       grouped (groupKey "vendor_id") (Mongo.potions Demo.store) buckets
       /\ outcome Demo.exec
            (analytics.search (Some "vendor_id") (Some "sum") (Some "price"))
            Demo.store
          = Responded
              (json (VArr (map (fun b =>
                                  row "result"
                                    (accumulated Demo.config (metricOp "sum") "price" b))
                               buckets))).
Proof.
  split; [reflexivity|]. split; [reflexivity|].
  exact (search_metric_groups Demo.config Demo.store "vendor_id" "sum" "price"
           (or_intror eq_refl) eq_refl eq_refl).
Defined.

(** X15: on every catalog, [averageScoreByVendor] answers with the same
    rows as the search grouped by vendor_id with metric avg and field score,
    the average standing under [averageScore] in the one and under [result]
    in the other. *)
Theorem averageScoreByVendor_is_search :
  forall (cfg : Mongo.Config) (s : Mongo.Store),
    exists rows : list (Value * Value),
      outcome (Mongo.exec cfg) averageScoreByVendor s
      = Responded (json (VArr (map (row "averageScore") rows)))
      /\ outcome (Mongo.exec cfg)
           (analytics.search (Some "vendor_id") (Some "avg") (Some "score")) s
         = Responded (json (VArr (map (row "result") rows))).
Proof.
  intros cfg s.
  exists (map (accumulated cfg Mongo.AccAvg "score")
              (insertAll (groupKey "vendor_id") (Mongo.potions s) [])).
  rewrite !map_map. split.
  - unfold averageScoreByVendor, catching. rewrite outcome_await.
    cbn [Mongo.exec fst snd].
    rewrite (aggregate_group cfg "vendor_id" "score" "averageScore" "$avg"
               Mongo.AccAvg _ eq_refl eq_refl eq_refl).
    reflexivity.
  - unfold analytics.search.
    cbn [JS.get JS.toString JS.assoc analytics.allowedMetrics String.eqb Ascii.eqb
         Bool.eqb JS.propTruthy JS.strictEq JS.isTruthy negb orb andb
         JS.propToString].
    unfold catching. rewrite outcome_await. cbn [Mongo.exec fst snd].
    rewrite (aggregate_group cfg "vendor_id" "score" "result" "$avg"
               Mongo.AccAvg _ eq_refl eq_refl eq_refl).
    reflexivity.
Qed.

(** X16: [search] answers 400 and makes no call on the store when
    [groupBy] is missing or empty, when [metric] is missing or empty, or when
    [field] is missing or empty and the metric is not count. *)
Theorem search_rejects_missing_parameters :
  forall (State : Type) (exec : StoreOp -> State -> Settled * State) (s : State)
         (groupBy metric field : option string),
    JS.isTruthy groupBy = false
    \/ JS.isTruthy metric = false
    \/ (JS.isTruthy field = false /\ JS.strictEq metric "count" = false) ->
    run exec (analytics.search groupBy metric field) s
    = (Responded (status_json 400 (error_body "Paramètres invalides")), [], s).
Proof.
  intros State exec s groupBy metric field H. unfold analytics.search.
  replace (negb (JS.propTruthy (JS.get analytics.allowedMetrics metric))
           || negb (JS.isTruthy groupBy)
           || negb (JS.isTruthy field) && negb (JS.strictEq metric "count"))
    with true; [reflexivity|].
  symmetry. destruct H as [H | [H | [H1 H2]]].
  - rewrite H. cbn [negb]. rewrite orb_true_r. reflexivity.
  - destruct metric as [[|c m]|]; try discriminate; reflexivity.
  - rewrite H1, H2. apply orb_true_r.
Qed.

Lemma search_rejects_missing_parameters_witness :
  run Demo.exec (analytics.search (Some "vendor_id") (Some "avg") None) Demo.store
  = (Responded (status_json 400 (error_body "Paramètres invalides")), [], Demo.store).
Proof.
  exact (search_rejects_missing_parameters Mongo.Store Demo.exec Demo.store
           (Some "vendor_id") (Some "avg") None
           (or_intror (or_intror (conj eq_refl eq_refl)))).
Defined.

(** ** Deleting a potion *)

Lemma final_respond :
  forall (State : Type) (exec : StoreOp -> State -> Settled * State) r s,
    final exec (Respond r) s = s.
Proof. reflexivity. Qed.

Lemma hasId_lookup :
  forall oid d, Mongo.hasId oid d = true -> lookup "_id" d = Some (VStr oid).
Proof.
  intros oid d H. unfold Mongo.hasId, Mongo.opt_eqb in H.
  destruct (lookup "_id" d) as [v|]; [|discriminate].
  apply value_eqb_VStr in H. congruence.
Qed.

Lemma absent_of_unlisted :
  forall oid docs,
    ~ In (VStr oid) (Mongo.ids docs) -> Mongo.findOneById oid docs = None.
Proof.
  intros oid docs. unfold Mongo.findOneById, Mongo.ids.
  induction docs as [|d docs IH]; intro N; [reflexivity|].
  cbn [List.find]. cbn [flat_map] in N. destruct (Mongo.hasId oid d) eqn:H.
  - exfalso. apply N. rewrite (hasId_lookup _ _ H). left. reflexivity.
  - apply IH. intro I. apply N. apply in_or_app. right. exact I.
Qed.

Lemma removeById_absent :
  forall oid docs,
    NoDup (Mongo.ids docs) ->
    Mongo.findOneById oid (Mongo.removeById oid docs) = None.
Proof.
  intros oid docs. induction docs as [|d docs IH]; intro U; [reflexivity|].
  cbn [Mongo.removeById]. unfold Mongo.ids in U. cbn [flat_map] in U.
  destruct (Mongo.hasId oid d) eqn:H.
  - apply absent_of_unlisted. rewrite (hasId_lookup _ _ H) in U. cbn [app] in U.
    inversion U; assumption.
  - unfold Mongo.findOneById in *. cbn [List.find]. rewrite H. apply IH.
    apply NoDup_app_remove_l in U. exact U.
Qed.

Lemma removeById_others :
  forall oid oid' docs,
    oid' <> oid ->
    Mongo.findOneById oid' (Mongo.removeById oid docs) = Mongo.findOneById oid' docs.
Proof.
  intros oid oid' docs N. unfold Mongo.findOneById.
  induction docs as [|d docs IH]; [reflexivity|].
  cbn [Mongo.removeById List.find]. destruct (Mongo.hasId oid d) eqn:H.
  - destruct (Mongo.hasId oid' d) eqn:H'; [|reflexivity].
    apply hasId_lookup in H. apply hasId_lookup in H'. congruence.
  - cbn [List.find]. rewrite IH. reflexivity.
Qed.

Lemma removeById_length :
  forall oid docs d,
    Mongo.findOneById oid docs = Some d ->
    S (List.length (Mongo.removeById oid docs)) = List.length docs.
Proof.
  intros oid docs d. unfold Mongo.findOneById.
  induction docs as [|a docs IH]; intro F; [discriminate|].
  cbn [List.find] in F. cbn [Mongo.removeById].
  destruct (Mongo.hasId oid a); [reflexivity|].
  cbn [List.length]. rewrite (IH F). reflexivity.
Qed.

(** X17: on a catalog whose identifiers are distinct and behind a valid
    session, once [delete] has answered 200 for an identifier, the catalog is
    one potion shorter, [getById] of that identifier answers 404, a second
    [delete] of it answers 404 too, and [getById] of every other identifier
    answers as it did before. *)
Theorem delete_then_absent :
  forall (cfg : Mongo.Config) (p : Platform) (reqCookies : list (string * string))
         (s : Mongo.Store) (id : string),
    let s' := final (Mongo.exec cfg) (potions.delete p reqCookies id) s in
    sessionValid p reqCookies = true ->
    NoDup (Mongo.ids (Mongo.potions s)) ->
    statusOf (outcome (Mongo.exec cfg) (potions.delete p reqCookies id) s) = Some 200 ->
    S (List.length (Mongo.potions s')) = List.length (Mongo.potions s)
    /\ outcome (Mongo.exec cfg) (potions.getById id) s' = Responded potions.notFound
    /\ outcome (Mongo.exec cfg) (potions.delete p reqCookies id) s'
       = Responded potions.notFound
    /\ forall other oid oid',
         Mongo.castObjectId cfg id = Some oid ->
         Mongo.castObjectId cfg other = Some oid' ->
         oid' <> oid ->
         outcome (Mongo.exec cfg) (potions.getById other) s'
         = outcome (Mongo.exec cfg) (potions.getById other) s.
Proof.
  intros cfg p reqCookies s id s' V U D. subst s'.
  unfold potions.delete in *. rewrite (authMiddleware_valid _ _ _ V) in *.
  unfold potions.getById, catching in *.
  rewrite outcome_await in D. rewrite final_await, !outcome_await.
  cbn [Mongo.exec] in *.
  destruct (Mongo.castObjectId cfg id) as [oid|] eqn:C; [|discriminate].
  destruct (Mongo.findOneById oid (Mongo.potions s)) as [doc|] eqn:F;
    [|discriminate].
  cbn [fst snd truthy negb]. rewrite final_respond. cbn [Mongo.potions].
  rewrite (removeById_absent oid _ U). cbn [fst snd Mongo.docOrNull truthy negb].
  repeat split.
  - exact (removeById_length oid _ doc F).
  - intros other o oid' Eo C' N. injection Eo as <-.
    rewrite !outcome_await. cbn [Mongo.exec]. rewrite C'.
    cbn [fst snd Mongo.potions]. rewrite (removeById_others oid oid' _ N).
    destruct (negb (truthy (Mongo.docOrNull
                              (Mongo.findOneById oid' (Mongo.potions s)))));
      reflexivity.
Qed.

Lemma delete_then_absent_witness :
  let id := "660bcf5fca6e9f06b8a2eec2" in
  let s' := final Demo.exec (potions.delete Demo.platform Demo.session id) Demo.store in
  outcome Demo.exec (potions.delete Demo.platform Demo.session id) Demo.store
  = Responded (json (message_body "Potion supprimée"))
  /\ List.length (Mongo.potions s') = 2%nat
  /\ outcome Demo.exec (potions.getById id) s' = Responded potions.notFound.
Proof.
  assert (U : NoDup (Mongo.ids (Mongo.potions Demo.store))).
  { cbn. repeat constructor; cbn; intuition discriminate. }
  pose proof (delete_then_absent Demo.config Demo.platform Demo.session Demo.store
                "660bcf5fca6e9f06b8a2eec2" eq_refl U eq_refl) as (L & G & _).
  split; [reflexivity|]. split; [|exact G].
  apply eq_add_S. exact L.
Defined.

(** ** Edge cases of the aggregations *)

Lemma projectDoc_unrated :
  forall d,
    lookup "ratings" d = None -> Mongo.projectDoc ratioSpec d = Mongo.Ok (ratioDoc d).
Proof.
  intros d R. unfold Mongo.projectDoc, ratioSpec, ratioDoc, expectedRatio, ratings.
  cbn [Mongo.mapM Mongo.computeField Mongo.bind snd fst Mongo.eval
       Mongo.evaluatePath].
  rewrite R. reflexivity.
Qed.

(** X5: on a catalog where each potion either has numeric ratings or has
    no ratings at all, the ratio aggregation succeeds, and a potion without
    ratings is listed with a null ratio, like one whose flavor is zero. *)
Theorem strengthFlavorRatio_unrated_is_null :
  forall (cfg : Mongo.Config) (s : Mongo.Store),
    Forall (fun d => rated d = true \/ lookup "ratings" d = None) (Mongo.potions s) ->
    exists out : list Doc,
      outcome (Mongo.exec cfg) analytics.strengthFlavorRatio s
      = Responded (json (VArr (map VDoc out)))
      /\ Forall2
           (fun d o =>
              lookup "strengthFlavorRatio" o = Some (expectedRatio d)
              /\ (lookup "ratings" d = None ->
                  lookup "strengthFlavorRatio" o = Some VNull)
              /\ lookup "name" o = lookup "name" d
              /\ lookup "_id" o = lookup "_id" d)
           (Mongo.potions s) out.
Proof.
  intros cfg s H. exists (map ratioDoc (Mongo.potions s)). split.
  - unfold analytics.strengthFlavorRatio, catching. rewrite outcome_await.
    cbn [Mongo.exec fst snd]. unfold Mongo.aggregate.
    rewrite parse_ratio_pipeline.
    cbn [Mongo.bind Mongo.runStages Mongo.runStage].
    replace (Mongo.mapM (Mongo.projectDoc ratioSpec) (Mongo.potions s))
      with (Mongo.Ok (map ratioDoc (Mongo.potions s))); [reflexivity|].
    symmetry. induction H as [|d docs Hd _ IH]; [reflexivity|].
    cbn [Mongo.mapM map]. rewrite IH.
    destruct Hd as [Hd|Hd];
      [rewrite (projectDoc_rated d Hd) | rewrite (projectDoc_unrated d Hd)];
      reflexivity.
  - induction H as [|d docs Hd _ IH]; constructor; [|exact IH].
    destruct (ratioDoc_fields d) as (R & N & I). rewrite R, N, I.
    repeat split. intro U. unfold expectedRatio, ratings. rewrite U. reflexivity.
Qed.

Lemma strengthFlavorRatio_unrated_is_null_witness :
  let unrated := [ ("_id", VStr "660bcf5fca6e9f06b8a2eec4"); ("name", VStr "Eau") ] in
  let s := Mongo.mkStore (Demo.catalog ++ [ unrated ]) [] in
  exists out : list Doc,
    outcome Demo.exec analytics.strengthFlavorRatio s
    = Responded (json (VArr (map VDoc out)))
    /\ Forall2
         (fun d o =>
            lookup "strengthFlavorRatio" o = Some (expectedRatio d)
            /\ (lookup "ratings" d = None ->
                lookup "strengthFlavorRatio" o = Some VNull)
            /\ lookup "name" o = lookup "name" d
            /\ lookup "_id" o = lookup "_id" d)
         (Mongo.potions s) out.
Proof.
  refine (strengthFlavorRatio_unrated_is_null Demo.config
            (Mongo.mkStore
               (Demo.catalog
                ++ [ [ ("_id", VStr "660bcf5fca6e9f06b8a2eec4"); ("name", VStr "Eau") ] ])
               []) _).
  cbn [Mongo.potions].
  repeat (constructor; [first [left; reflexivity | right; reflexivity]|]).
  constructor.
Defined.

Lemma mapM_fails :
  forall (A B : Type) (f : A -> Mongo.Result B) (l : list A) (a : A) (e : Error),
    In a l -> f a = Mongo.Fail e -> exists e', Mongo.mapM f l = Mongo.Fail e'.
Proof.
  intros A B f l a e. induction l as [|x l IH]; intros I F; [contradiction|].
  cbn [Mongo.mapM]. destruct I as [->|I].
  - rewrite F. exists e. reflexivity.
  - destruct (f x) as [b|e0]; [|exists e0; reflexivity].
    destruct (IH I F) as [e' E]. rewrite E. exists e'. reflexivity.
Qed.

(** X11: one potion whose strength is a number and whose flavor is a string
    is enough for the ratio aggregation to fail as a whole: the route answers
    500, whatever the other potions are. *)
Theorem strengthFlavorRatio_fails_on_text_flavor :
  forall (cfg : Mongo.Config) (s : Mongo.Store) (d r : Doc)
         (strength : number) (flavor : string),
    In d (Mongo.potions s) ->
    lookup "ratings" d = Some (VDoc r) ->
    lookup "strength" r = Some (VNum strength) ->
    lookup "flavor" r = Some (VStr flavor) ->
    statusOf (outcome (Mongo.exec cfg) analytics.strengthFlavorRatio s) = Some 500.
Proof.
  intros cfg s d r strength flavor I R St Fl.
  assert (F : exists e, Mongo.projectDoc ratioSpec d = Mongo.Fail e).
  { unfold Mongo.projectDoc, ratioSpec.
    cbn [Mongo.mapM Mongo.computeField Mongo.bind snd fst Mongo.eval
         Mongo.evaluatePath].
    rewrite R. cbn [Mongo.evaluatePath]. rewrite St, Fl.
    cbn. eexists. reflexivity. }
  destruct F as [e F].
  destruct (mapM_fails _ _ _ _ d e I F) as [e' E].
  unfold analytics.strengthFlavorRatio, catching. rewrite outcome_await.
  cbn [Mongo.exec fst snd]. unfold Mongo.aggregate. rewrite parse_ratio_pipeline.
  cbn [Mongo.bind Mongo.runStages Mongo.runStage]. rewrite E. reflexivity.
Qed.

Lemma strengthFlavorRatio_fails_on_text_flavor_witness :
  let bad :=
    [ ("_id", VStr "660bcf5fca6e9f06b8a2eec5"); ("name", VStr "Sirop");
      ("ratings", VDoc [ ("strength", Demo.num 3); ("flavor", VStr "sweet") ]) ] in
  statusOf (outcome Demo.exec analytics.strengthFlavorRatio
              (Mongo.mkStore (Demo.catalog ++ [ bad ]) []))
  = Some 500.
Proof.
  refine (strengthFlavorRatio_fails_on_text_flavor Demo.config
            (Mongo.mkStore _ [])
            [ ("_id", VStr "660bcf5fca6e9f06b8a2eec5"); ("name", VStr "Sirop");
              ("ratings", VDoc [ ("strength", Demo.num 3); ("flavor", VStr "sweet") ]) ]
            [ ("strength", Demo.num 3); ("flavor", VStr "sweet") ]
            (Int 3) "sweet" _ eq_refl eq_refl eq_refl).
  cbn. tauto.
Defined.

Lemma insertAll_null :
  forall (key : Doc -> Value) (docs members : list Doc),
    Forall (fun d => key d = VNull) docs ->
    insertAll key docs [ (VNull, members) ] = [ (VNull, (members ++ docs)%list) ].
Proof.
  intros key docs. induction docs as [|d docs IH]; intros members H.
  - rewrite app_nil_r. reflexivity.
  - inversion H as [|? ? Hd Hr]; subst.
    unfold insertAll in *. cbn [fold_left Mongo.insertBucket]. rewrite Hd.
    cbn [value_eqb]. rewrite (IH _ Hr), <- app_assoc. reflexivity.
Qed.

(** X12: a count search grouped by a field that no potion has answers 200
    with a single entry, whose key is null and whose count is the size of
    the catalog; on an empty catalog it answers 200 with the empty list. *)
Theorem search_count_absent_field :
  forall (cfg : Mongo.Config) (s : Mongo.Store) (groupBy : string)
         (field : option string),
    isFieldPath groupBy = true ->
    Forall (fun d => Mongo.evaluatePath (Mongo.split "." groupBy) d = None)
      (Mongo.potions s) ->
    outcome (Mongo.exec cfg) (analytics.search (Some groupBy) (Some "count") field) s
    = Responded
        (json (VArr match Mongo.potions s with
                    | [] => []
                    | _ :: _ =>
                        [ countEntry (VNull, List.length (Mongo.potions s)) ]
                    end)).
Proof.
  intros cfg s groupBy field F A.
  rewrite search_count_request by (apply isFieldPath_truthy; exact F).
  unfold catching. rewrite outcome_await. cbn [Mongo.exec fst snd].
  unfold Mongo.aggregate.
  cbn [Mongo.mapM Mongo.parseStage Mongo.parseExpr Mongo.bind].
  rewrite (parseString_fieldPath _ F).
  cbn [Mongo.bind Mongo.mapM Mongo.parseAccOp Mongo.parseExpr fst snd
       String.eqb Ascii.eqb Bool.eqb Mongo.runStages Mongo.runStage].
  rewrite groupDocs_path. cbn [Mongo.bind]. fold (groupKey groupBy).
  rewrite count_outputs. cbn [Mongo.bind Mongo.settle].
  assert (K : Forall (fun d => groupKey groupBy d = VNull) (Mongo.potions s)).
  { apply Forall_forall. intros d I. unfold groupKey.
    rewrite (proj1 (Forall_forall _ _) A d I). reflexivity. }
  destruct (Mongo.potions s) as [|d docs]; [reflexivity|].
  inversion K as [|? ? Kd Kr]; subst.
  unfold insertAll. cbn [fold_left Mongo.insertBucket]. rewrite Kd.
  fold (insertAll (groupKey groupBy) docs [ (VNull, [ d ]) ]).
  rewrite (insertAll_null _ _ _ Kr). reflexivity.
Qed.

Lemma search_count_absent_field_witness :
  outcome Demo.exec (analytics.search (Some "color") (Some "count") None) Demo.store
  = Responded (json (VArr [ countEntry (VNull, 3%nat) ])).
Proof.
  refine (search_count_absent_field Demo.config Demo.store "color" None eq_refl _).
  repeat constructor.
Defined.

(** X10: a registration whose name is absent, empty or only whitespace is
    answered 400 without any call on the store, and its errors begin with
    the two errors of the name, in this order: the name is required, then its
    length; the errors of the password follow. *)
Theorem register_blank_name :
  forall (State : Type) (exec : StoreOp -> State -> Settled * State) (s : State)
         (name password : option string),
    JS.trim (auth.fieldInput name) = "" ->
    run exec (auth.register name password) s
    = (Responded
         (status_json 400
            (VDoc [ ("errors",
                      VArr (map auth.errorValue
                              ([ auth.mkFieldError ""
                                   "Le nom d’utilisateur est requis." "name" "body";
                                 auth.mkFieldError ""
                                   "Doit faire entre 3 et 30 caractères." "name" "body" ]
                               ++ passwordErrors (sanitize password)))) ])),
       [], s).
Proof.
  intros State exec s name password B.
  assert (N : sanitize name = "") by (unfold sanitize; rewrite B; reflexivity).
  unfold auth.register. rewrite validate_sanitized, N. reflexivity.
Qed.

Lemma register_blank_name_witness :
  JS.trim (auth.fieldInput (Some "  	 ")) = ""
  /\ run Demo.exec (auth.register (Some "  	 ") (Some "alohomora")) Demo.store
     = (Responded
          (status_json 400
             (VDoc [ ("errors",
                       VArr (map auth.errorValue
                               [ auth.mkFieldError ""
                                   "Le nom d’utilisateur est requis." "name" "body";
                                 auth.mkFieldError ""
                                   "Doit faire entre 3 et 30 caractères." "name" "body" ])) ])),
        [], Demo.store).
Proof.
  split; [reflexivity|].
  exact (register_blank_name Mongo.Store Demo.exec Demo.store (Some "  	 ")
           (Some "alohomora") eq_refl).
Defined.

(** ** Listings *)

(** X18: when neither [min] nor [max] reads as a number (missing or not
    numeric), [priceRange] puts no condition on the price: whatever the store
    does, it makes the call of the full listing and gives its answer. *)
Theorem priceRange_without_bounds :
  forall (State : Type) (exec : StoreOp -> State -> Settled * State)
         (p : Platform) (s : State) (min max : option string),
    bound p min = None ->
    bound p max = None ->
    run exec (potions.priceRange p min max) s = run exec listAll s.
Proof.
  intros State exec p s min max Bmin Bmax.
  unfold bound in Bmin, Bmax.
  unfold potions.priceRange, potions.priceQuery, potions.priceFilter, listAll.
  destruct (JS.isNaN (parseFloatParam p min)); [|discriminate].
  destruct (JS.isNaN (parseFloatParam p max)); [|discriminate].
  reflexivity.
Qed.

Lemma priceRange_without_bounds_witness :
  run Demo.exec (potions.priceRange Demo.platform None (Some "cheap")) Demo.store
  = run Demo.exec listAll Demo.store.
Proof.
  exact (priceRange_without_bounds Mongo.Store Demo.exec Demo.platform Demo.store
           None (Some "cheap") eq_refl eq_refl).
Defined.
